(** * fabmogp demo driver ([config_files/demo/run.py])

    A shallow embedding of the calibration pipeline of [run.py]: the batch
    driver [run_mogp_simulation], the analysis stage [run_mogp_analysis] and the
    command-line entry point.  The script is orchestration code: it threads
    the process state (numpy's global random state, the files on disk, the
    standard output) through calls to external collaborators (the
    [earthquake] helpers and [mogp_emulator]).  The embedding makes that state
    explicit in a state-and-exception monad; the collaborators, and the
    built-in [int], are the fields of type classes, so that every statement
    about the driver holds for any implementation of them. *)

From Stdlib Require Import ZArith Ascii String Floats Lia DecimalString DecimalZ.
From stdpp Require Import base gmap strings list.

Open Scope Z_scope.

(** ** Python built-ins used by the script *)

Module Py.

(** [str(n)] and ["{}".format(n)] for an [int]: decimal digits, with a
    leading minus sign for negative numbers. *)
Definition str_of_int (n : Z) : string :=
  NilZero.string_of_int (Z.to_int n).

(** ASCII white space as [int()] skips it: tab, line feed, vertical tab,
    form feed, carriage return and space. *)
Definition is_space (c : ascii) : bool :=
  let n := nat_of_ascii c in
  (Nat.eqb n 32 || (Nat.leb 9 n && Nat.leb n 13))%bool.

Definition digit_value (c : ascii) : option Z :=
  let n := nat_of_ascii c in
  if (Nat.leb 48 n && Nat.leb n 57)%bool then Some (Z.of_nat n - 48) else None.

Definition is_underscore (c : ascii) : bool := Nat.eqb (nat_of_ascii c) 95.

Fixpoint lstrip (s : string) : string :=
  match s with
  | String c r => if is_space c then lstrip r else s
  | EmptyString => EmptyString
  end.

Fixpoint all_space (s : string) : bool :=
  match s with
  | String c r => (is_space c && all_space r)%bool
  | EmptyString => true
  end.

(** The digits after the first one: a single underscore is allowed between
    two digits; scanning stops at the first other character.  [None] is a
    misplaced underscore. *)
Fixpoint scan_digits (acc : Z) (s : string) : option (Z * string) :=
  match s with
  | EmptyString => Some (acc, EmptyString)
  | String c r =>
      match digit_value c with
      | Some d => scan_digits (10 * acc + d) r
      | None =>
          if is_underscore c then
            match r with
            | String c' r' =>
                match digit_value c' with
                | Some d => scan_digits (10 * acc + d) r'
                | None => None
                end
            | EmptyString => None
            end
          else Some (acc, s)
      end
  end.

Definition unsigned_literal (s : string) : option Z :=
  match s with
  | String c r =>
      match digit_value c with
      | Some d =>
          match scan_digits d r with
          | Some (n, rest) => if all_space rest then Some n else None
          | None => None
          end
      | None => None
      end
  | EmptyString => None
  end.

(** The limit CPython puts on the number of digits of a decimal text
    ([sys.int_max_str_digits], 4300 by default). *)
Definition max_str_digits : nat := 4300.

Fixpoint count_digits (s : string) : nat :=
  match s with
  | String c r =>
      match digit_value c with
      | Some _ => S (count_digits r)
      | None => count_digits r
      end
  | EmptyString => O
  end.

(** The ASCII fragment of [int(s)] in base ten: white space, sign, digits
    and digit-group underscores as CPython reads them, and the digit limit;
    [None] stands for the [ValueError] it raises.  On a text with a character
    outside ASCII this is not [int()], which also accepts the decimal digits
    and the white space of Unicode: the driver therefore takes [int()] as a
    collaborator, and only the reference collaborators use this fragment. *)
Definition int (s : string) : option Z :=
  if Nat.ltb max_str_digits (count_digits s) then None
  else
    match lstrip s with
    | String "+" r => unsigned_literal r
    | String "-" r => Z.opp <$> unsigned_literal r
    | t => unsigned_literal t
    end.

(** [os.path.join(a, b)] on POSIX. *)
Definition ends_with_slash (s : string) : bool :=
  match String.length s with
  | O => false
  | S n => match String.get n s with Some "/"%char => true | _ => false end
  end.

Definition is_absolute (s : string) : bool :=
  match s with String "/" _ => true | _ => false end.

Definition join (a b : string) : string :=
  if is_absolute b then b
  else if (String.eqb a EmptyString || ends_with_slash a)%bool then a +:+ b
  else a +:+ "/" +:+ b.

(** The components of a path between slashes. *)
Fixpoint split_path (s : string) : list string :=
  match s with
  | EmptyString => [EmptyString]
  | String c r =>
      let rest := split_path r in
      if Ascii.eqb c "/" then EmptyString :: rest
      else match rest with
           | h :: t => String c h :: t
           | [] => [String c EmptyString]
           end
  end.

(** One step of path resolution; the directory stack has its innermost
    component first. *)
Definition enter (stack : list string) (c : string) : list string :=
  if (String.eqb c EmptyString || String.eqb c ".")%bool then stack
  else if String.eqb c ".." then tail stack
  else c :: stack.

(** The file a path string names for a process whose working directory is
    [cwd] (outermost component first), symbolic links apart.  A [..] is
    cancelled against the component before it, which is what the system does
    when that component is an existing directory; the statements that need
    more than that ask for a path without [..]. *)
Definition resolve (cwd : list string) (p : string) : list string :=
  rev (fold_left enter (split_path p)
         (if is_absolute p then [] else rev cwd)).

End Py.

(** ** Data model *)

(** A [ParameterPoint] is a row of the array [ed.sample] returns, a [Design]
    the array itself; coordinates, observations and predictions are numpy
    [float64] values. *)
Abbreviation Point := (list float) (only parsing).
Abbreviation Design := (list (list float)) (only parsing).
Abbreviation Obs := float (only parsing).

(** What [gp.predict] gives for one query point. *)
Record Prediction : Type := mkPrediction { mean : float; unc : float }.

(** Exceptions that reach the script.  [Raised what] is an exception thrown
    inside a collaborator. *)
Inductive exn : Type :=
| ValueError
| IndexError
| SystemExit
| FileNotFoundError (file : string)
| Raised (what : string).

(** The calls the script makes, in the order it makes them.  An event is
    recorded when the call is made, whether or not the callee then raises. *)
Inductive event : Type :=
| ev_seed (seed : Z)
| ev_sample (n_samples : Z)
| ev_create_problem (point : Point) (name output_dir : string)
| ev_run_simulation (name : string) (n_proc : Z)
    (mpi_exec fdfault_exec output_dir : string)
| ev_compute_moment (name results_dir : string)
| ev_save (file : string) (arr : Design)
| ev_load (file : string)
| ev_fit (inputs : Design) (targets : list Obs)
| ev_learn_hyperparameters
| ev_predict (testing : Design)
| ev_print (text : string)
| ev_print_point (label : string) (p : Point)
| ev_print_rows (rows : Design).

(** ** External collaborators

    [numpy.random], [mogp_emulator.LatinHypercubeDesign] (the module-level
    object [ed]), the three helpers imported from [earthquake] and
    [mogp_emulator.GaussianProcess].  The simulator keeps its case
    directories in [sim_state]; [compute_moment] only reads them. *)
Class Collaborators : Type := {
  rng_state : Type;
  sim_state : Type;
  emulator : Type;
  np_random_seed : Z -> rng_state;
  ed_sample : Z -> rng_state -> exn + (Design * rng_state);
  create_problem : Point -> string -> string -> sim_state -> sim_state * option exn;
  run_simulation :
    string -> Z -> string -> string -> string -> sim_state -> sim_state * option exn;
  compute_moment : string -> string -> sim_state -> exn + Obs;
  GaussianProcess : Design -> list Obs -> exn + emulator;
  learn_hyperparameters : emulator -> exn + emulator;
  gp_predict : emulator -> Design -> exn + list Prediction
}.

(** The built-in [int] of the interpreter, applied to a command-line
    argument; [None] is its [ValueError]. *)
Class Builtins : Type := {
  py_int : string -> option Z
}.

(** ** State and exceptions

    A computation takes the state of the process and returns the state it
    leaves behind together with a value or the exception that ended it. *)
Definition M (W A : Type) : Type := W -> W * (exn + A).

Definition ret {W A} (a : A) : M W A := fun w => (w, inr a).

Definition raise {W A} (e : exn) : M W A := fun w => (w, inl e).

Definition bind {W A B} (c : M W A) (k : A -> M W B) : M W B :=
  fun w =>
    match c w with
    | (w', inr a) => k a w'
    | (w', inl e) => (w', inl e)
    end.

Notation "x <- c ;; k" := (bind c (fun x => k))
  (at level 100, c at next level, k at level 200, right associativity).
Notation "c ;; k" := (bind c (fun _ => k))
  (at level 100, k at level 200, right associativity).

(** ** History matching *)

(** Modelled from the spec: the object [mogp_emulator.HistoryMatching(obs,
    coords, expectations, threshold)] builds; the class is not in the
    repository. *)
Record HistoryMatching : Type := mkHistoryMatching {
  hm_obs : Obs;
  hm_coords : Design;
  hm_expectations : list Prediction;
  hm_threshold : float
}.

(** Modelled from the spec: the score [hm.get_implausibility()] gives one
    query point, which section 4.5 states as
    [|observation - mean_i| / sqrt(variance_i)].  The arithmetic is numpy's,
    IEEE 754 binary64, where a division by zero gives an infinity or a NaN
    and raises nothing.  At a variance of [-0.] the formula as written has
    [sqrt(-0.) = -0.], which decides the sign of an infinite score; no
    statement below depends on that sign. *)
Definition implausibility_at (obs : Obs) (p : Prediction) : float :=
  (PrimFloat.abs (obs - mean p) / PrimFloat.sqrt (unc p))%float.

(** Modelled from the spec: [hm.get_implausibility()], one score per query
    point, in order. *)
Definition get_implausibility (hm : HistoryMatching) : list float :=
  map (implausibility_at (hm_obs hm)) (hm_expectations hm).

(** [np.where(I <= threshold)]: the positions, counted from [i], of the
    scores that pass the comparison. *)
Fixpoint where_le (i : nat) (I : list float) (threshold : float) : list nat :=
  match I with
  | [] => []
  | x :: rest =>
      if PrimFloat.leb x threshold then i :: where_le (S i) rest threshold
      else where_le (S i) rest threshold
  end.

(** Modelled from the spec: [hm.get_NROY()], by section 4.5 the indices
    where [implausibility_i <= threshold]. *)
Definition get_NROY (hm : HistoryMatching) : list nat :=
  where_le 0 (get_implausibility hm) (hm_threshold hm).

(** [arr[idx]] for a list of row numbers: an index out of range is an
    [IndexError]. *)
Fixpoint take_rows (arr : Design) (idx : list nat) : option Design :=
  match idx with
  | [] => Some []
  | i :: rest =>
      match arr !! i, take_rows arr rest with
      | Some row, Some rows => Some (row :: rows)
      | _, _ => None
      end
  end.

Definition nl : string := String (ascii_of_nat 10) EmptyString.
Definition tab : string := String (ascii_of_nat 9) EmptyString.

(** ["simulation_{}".format(counter)], the case name both loops build. *)
Definition format_simulation (counter : Z) : string :=
  "simulation_" +:+ Py.str_of_int counter.

(** ** The pipeline *)

Section Pipeline.

Context `{C : Collaborators} `{B : Builtins}.

(** The state of the process: its working directory, the [.npy] files on
    disk (by resolved path), numpy's global random state, the simulator's
    case directories, and the calls made so far. *)
Record World : Type := mkWorld {
  cwd : list string;
  files : gmap (list string) Design;
  rng : rng_state;
  sim : sim_state;
  log : list event
}.

Definition record_event (e : event) (w : World) : World :=
  mkWorld (cwd w) (files w) (rng w) (sim w) (log w ++ [e]).

Definition set_rng (r : rng_state) (w : World) : World :=
  mkWorld (cwd w) (files w) r (sim w) (log w).

Definition set_sim (s : sim_state) (w : World) : World :=
  mkWorld (cwd w) (files w) (rng w) s (log w).

Definition set_files (f : gmap (list string) Design) (w : World) : World :=
  mkWorld (cwd w) f (rng w) (sim w) (log w).

(** *** Calls *)

Definition do_seed (seed : Z) : M World unit :=
  fun w => (set_rng (np_random_seed seed) (record_event (ev_seed seed) w), inr tt).

Definition do_sample (n_samples : Z) : M World Design :=
  fun w =>
    let w1 := record_event (ev_sample n_samples) w in
    match ed_sample n_samples (rng w) with
    | inl e => (w1, inl e)
    | inr (points, r) => (set_rng r w1, inr points)
    end.

Definition do_create_problem (point : Point) (name output_dir : string)
  : M World unit :=
  fun w =>
    let w1 := record_event (ev_create_problem point name output_dir) w in
    match create_problem point name output_dir (sim w) with
    | (s, Some e) => (set_sim s w1, inl e)
    | (s, None) => (set_sim s w1, inr tt)
    end.

Definition do_run_simulation (name : string) (n_proc : Z)
    (mpi_exec fdfault_exec output_dir : string) : M World unit :=
  fun w =>
    let w1 :=
      record_event (ev_run_simulation name n_proc mpi_exec fdfault_exec output_dir) w in
    match run_simulation name n_proc mpi_exec fdfault_exec output_dir (sim w) with
    | (s, Some e) => (set_sim s w1, inl e)
    | (s, None) => (set_sim s w1, inr tt)
    end.

Definition do_compute_moment (name results_dir : string) : M World Obs :=
  fun w =>
    (record_event (ev_compute_moment name results_dir) w,
     compute_moment name results_dir (sim w)).

(** [np.save(file, arr)]; [file] already ends in [.npy]. *)
Definition np_save (file : string) (arr : Design) : M World unit :=
  fun w =>
    (set_files (<[Py.resolve (cwd w) file := arr]> (files w))
       (record_event (ev_save file arr) w), inr tt).

Definition np_load (file : string) : M World Design :=
  fun w =>
    (record_event (ev_load file) w,
     match files w !! Py.resolve (cwd w) file with
     | Some arr => inr arr
     | None => inl (FileNotFoundError file)
     end).

Definition do_GaussianProcess (inputs : Design) (targets : list Obs)
  : M World emulator :=
  fun w => (record_event (ev_fit inputs targets) w, GaussianProcess inputs targets).

Definition do_learn_hyperparameters (gp : emulator) : M World emulator :=
  fun w => (record_event ev_learn_hyperparameters w, learn_hyperparameters gp).

Definition do_predict (gp : emulator) (testing : Design) : M World (list Prediction) :=
  fun w => (record_event (ev_predict testing) w, gp_predict gp testing).

Definition emit (e : event) : M World unit :=
  fun w => (record_event e w, inr tt).

Definition print (text : string) : M World unit := emit (ev_print text).

Definition index {A} (l : list A) (i : nat) : M World A :=
  match l !! i with
  | Some a => ret a
  | None => raise IndexError
  end.

(** *** [run_mogp_simulation] *)

(** Lines 25-31: the loop over [input_points]; the value is the counter
    after the last case. *)
Fixpoint simulation_loop (input_points : Design) (counter : Z)
    (mpi_exec fdfault_exec results_dir : string) : M World Z :=
  match input_points with
  | [] => ret counter
  | point :: rest =>
      let name := format_simulation counter in
      do_create_problem point name results_dir ;;
      do_run_simulation name 4 mpi_exec fdfault_exec results_dir ;;
      simulation_loop rest (counter + 1) mpi_exec fdfault_exec results_dir
  end.

Definition run_mogp_simulation (sample_points : Z)
    (mpi_exec fdfault_exec results_dir : string) : M World unit :=
  do_seed 157374 ;;
  input_points <- do_sample sample_points ;;
  simulation_loop input_points 1 mpi_exec fdfault_exec results_dir ;;
  np_save "input_points.npy" input_points.

(** *** [run_mogp_analysis] *)

(** Lines 41-48: one [compute_moment] per row, appended to [results]. *)
Fixpoint analysis_loop (input_points : Design) (counter : Z)
    (results : list Obs) (results_dir : string) : M World (list Obs) :=
  match input_points with
  | [] => ret results
  | _point :: rest =>
      let name := format_simulation counter in
      result <- do_compute_moment name results_dir ;;
      analysis_loop rest (counter + 1) (results ++ [result]) results_dir
  end.

(** Lines 39-50: the persisted design and the observations of its cases. *)
Definition load_training_set (results_dir : string) : M World (Design * list Obs) :=
  input_points <- np_load (Py.join results_dir "input_points.npy") ;;
  results <- analysis_loop input_points 1 [] results_dir ;;
  ret (input_points, results).

(** Lines 55-61: fit the emulator once, predict at 1000 fresh points. *)
Definition fit_and_query (input_points : Design) (results : list Obs)
  : M World (Design * list Prediction) :=
  gp <- do_GaussianProcess input_points results ;;
  gp <- do_learn_hyperparameters gp ;;
  query_points <- do_sample 1000 ;;
  predictions <- do_predict gp query_points ;;
  ret (query_points, predictions).

(** Lines 69-74: the synthetic observation. *)
Definition draw_and_run_validation (mpi_exec fdfault_exec results_dir : string)
  : M World (Design * Obs) :=
  known_input <- do_sample 1 ;;
  let name := "known_value" in
  point <- index known_input 0 ;;
  do_create_problem point name results_dir ;;
  do_run_simulation name 4 mpi_exec fdfault_exec results_dir ;;
  known_value <- do_compute_moment name results_dir ;;
  ret (known_input, known_value).

(** Lines 90-100: implausibility against the threshold 2. and the report. *)
Definition history_match (known_input : Design) (known_value : Obs)
    (query_points : Design) (predictions : list Prediction) : M World unit :=
  let hm := mkHistoryMatching known_value query_points predictions 2%float in
  let implaus := get_implausibility hm in
  point <- index known_input 0 ;;
  emit (ev_print_point "Actual point:" point) ;;
  print "NROY:" ;;
  match take_rows query_points (get_NROY hm) with
  | Some rows => emit (ev_print_rows rows)
  | None => raise IndexError
  end.

Definition run_mogp_analysis (mpi_exec fdfault_exec results_dir : string)
  : M World unit :=
  training <- load_training_set results_dir ;;
  let '(input_points, results) := training in
  emulated <- fit_and_query input_points results ;;
  let '(query_points, predictions) := emulated in
  validation <- draw_and_run_validation mpi_exec fdfault_exec results_dir ;;
  let '(known_input, known_value) := validation in
  history_match known_input known_value query_points predictions.

(** *** Entry point *)

(** [sys.argv[i]]. *)
Definition argv_at (argv : list string) (i : nat) : M World string :=
  index argv i.

(** Lines 103-128.  [exit()] raises [SystemExit]; an [IndexError] from
    [sys.argv[5]] inside the [try] is not caught by [except ValueError]. *)
Definition main (argv : list string) : M World unit :=
  mood <- argv_at argv 1 ;;
  if String.eqb mood "run_simulation" then
    mpi_exec <- argv_at argv 2 ;;
    fdfault_exec <- argv_at argv 3 ;;
    results_dir <- argv_at argv 4 ;;
    arg <- argv_at argv 5 ;;
    match py_int arg with
    | None =>
        print "Error : input sample points should be integer value !" ;;
        raise SystemExit
    | Some sample_points =>
        print (nl +:+ tab +:+ tab +:+ "mood = " +:+ mood +:+ tab +:+ "<class 'str'>") ;;
        print (tab +:+ tab +:+ "sample_points = " +:+ Py.str_of_int sample_points
               +:+ tab +:+ "<class 'int'>") ;;
        run_mogp_simulation sample_points mpi_exec fdfault_exec results_dir
    end
  else if String.eqb mood "analysis" then
    mpi_exec <- argv_at argv 2 ;;
    fdfault_exec <- argv_at argv 3 ;;
    results_dir <- argv_at argv 4 ;;
    run_mogp_analysis mpi_exec fdfault_exec results_dir
  else ret tt.

End Pipeline.

(** ** A reference implementation of the collaborators

    The collaborators of section 6 of the specification, whose code is not
    in the repository, in the shape of the stubs of its section 8: [sample]
    draws from a counter; [create_case] writes the case under its name in the
    output directory, [run_case] completes it unless the external process
    fails, [extract_observation] is the sum of the point and fails if the
    case is incomplete or missing; the surrogate predicts the sum with a
    fixed variance.  The theorems on the driver do not depend on it; it
    serves to run the driver on concrete inputs. *)
Module Stub.

Record case : Type := mkCase { case_point : Point; case_done : bool }.

Record simulator : Type := mkSimulator {
  cases : gmap (string * string) case;
  failing : list string
}.

Definition point_of (k : Z) : Point :=
  [PrimFloat.of_uint63 (Uint63.of_Z k); 0.25%float; 1%float].

(** [strict] tells whether a count that is not positive is refused. *)
Definition sample (strict : bool) (n : Z) (r : Z) : exn + (Design * Z) :=
  if Z.leb n 0 then
    if strict then inl (Raised "AssertionError") else inr ([], r)
  else
    inr (map (fun k => point_of (r + Z.of_nat k)) (seq 0 (Z.to_nat n)), r + n).

Definition moment (p : Point) : Obs :=
  fold_right (fun x acc => (x + acc)%float) 0%float p.

Definition create_case (p : Point) (name output_dir : string) (s : simulator)
  : simulator * option exn :=
  (mkSimulator (<[(output_dir, name) := mkCase p false]> (cases s)) (failing s), None).

Definition run_case (name : string) (n_proc : Z)
    (mpi_exec fdfault_exec output_dir : string) (s : simulator)
  : simulator * option exn :=
  match cases s !! (output_dir, name) with
  | Some c =>
      if bool_decide (name ∈ failing s) then (s, Some (Raised "SimulationFailure"))
      else (mkSimulator (<[(output_dir, name) := mkCase (case_point c) true]> (cases s))
              (failing s), None)
  | None => (s, Some (Raised "SimulationFailure"))
  end.

Definition extract_observation (name results_dir : string) (s : simulator)
  : exn + Obs :=
  match cases s !! (results_dir, name) with
  | Some (mkCase p true) => inr (moment p)
  | _ => inl (Raised "MissingResult")
  end.

Definition fit (inputs : Design) (targets : list Obs) : exn + (Design * list Obs) :=
  if Nat.eqb (length inputs) (length targets) then inr (inputs, targets)
  else inl (Raised "FitFailure").

(** Modelled from the spec: the sampler, the [earthquake] helpers and the
    Gaussian process of section 6, none of which is in the repository. *)
Definition collaborators (strict : bool) (variance : float) : Collaborators := {|
  rng_state := Z;
  sim_state := simulator;
  emulator := Design * list Obs;
  np_random_seed := fun seed => seed;
  ed_sample := sample strict;
  create_problem := create_case;
  run_simulation := run_case;
  compute_moment := extract_observation;
  GaussianProcess := fit;
  learn_hyperparameters := fun gp => inr gp;
  gp_predict := fun _ testing => inr (map (fun p => mkPrediction (moment p) variance) testing)
|}.

(** A process started in [/home/user] with no file written yet. *)
Definition world0 (strict : bool) (variance : float) (failing : list string)
  : @World (collaborators strict variance) :=
  @mkWorld (collaborators strict variance)
    ["home"; "user"] ∅ 0 (mkSimulator ∅ failing) [].

(** [int()] on the texts of the ASCII fragment. *)
Definition builtins : Builtins := {| py_int := Py.int |}.

End Stub.

(** ** What the loops are expected to do *)

(** The two calls that construct and execute one case. *)
Definition case_events (point : Point) (name mpi_exec fdfault_exec output_dir : string)
  : list event :=
  [ev_create_problem point name output_dir;
   ev_run_simulation name 4 mpi_exec fdfault_exec output_dir].

(** The calls of a batch whose first case has number [first]: the row at
    position [i] (from 0) is case [simulation_(i + first)]. *)
Definition batch_events (first : Z) (d : Design)
    (mpi_exec fdfault_exec output_dir : string) : list event :=
  concat (imap (fun i point =>
                  case_events point (format_simulation (Z.of_nat i + first))
                    mpi_exec fdfault_exec output_dir) d).

(** The case names of a design, in row order. *)
Definition case_names (first : Z) (d : Design) : list string :=
  imap (fun i _ => format_simulation (Z.of_nat i + first)) d.

Definition is_save (e : event) : bool :=
  match e with ev_save _ _ => true | _ => false end.

Definition is_dispatch (e : event) : bool :=
  match e with
  | ev_create_problem _ _ _ | ev_run_simulation _ _ _ _ _ => true
  | _ => false
  end.

(** The path [run_mogp_simulation] writes and the one [run_mogp_analysis]
    reads. *)
Definition saved_file (cwd : list string) : list string :=
  Py.resolve cwd "input_points.npy".

Definition loaded_file (cwd : list string) (results_dir : string) : list string :=
  Py.resolve cwd (Py.join results_dir "input_points.npy").

(** What the guard of the entry point does with a sample count it refuses:
    the message, then [exit()], and nothing else. *)
Definition invalid_input_reported `{C : Collaborators} `{B : Builtins} (argv : list string) (w : World)
  : Prop :=
  main argv w
  = (record_event (ev_print "Error : input sample points should be integer value !") w,
     inl SystemExit).

(** The calls made between two states of the process. *)
Definition new_events `{C : Collaborators} (w w' : World) : list event :=
  drop (length (log w)) (log w').

Ltac world_simpl H :=
  cbn [rng sim files cwd log set_rng set_sim set_files record_event] in H.

(** ** Further definitions for the properties of the driver *)

(** A path none of whose components is [..]. *)
Definition dotdot_free (path : string) : bool :=
  forallb (fun c => negb (String.eqb c "..")) (Py.split_path path).

(** Calls that change what a later run of the script finds: a save of the
    design, a reseeding of the generator. *)
Definition is_seed (e : event) : bool :=
  match e with ev_seed _ => true | _ => false end.

(** A computation that leaves the working directory and the [.npy] files of
    the state alone and only makes calls that satisfy [P]. *)
Definition keeps_files `{C : Collaborators} (P : event -> Prop) {A}
    (c : M World A) : Prop :=
  forall w w' r, c w = (w', r) ->
    cwd w' = cwd w /\ files w' = files w /\
    exists evs, log w' = log w ++ evs /\ Forall P evs.

Definition read_only_call (e : event) : Prop :=
  is_save e = false /\ is_seed e = false.

(** The contract of the simulator the pipeline relies on, for a summary
    [moment] and a predicate [complete s dir name p] that reads "in state [s]
    the case [name] of directory [dir] has been run at point [p]": running a
    case that was just constructed completes it, the calls for another name
    leave it complete, and a complete case yields the moment of its point. *)
Record simulator_contract `{C : Collaborators} (moment : Point -> Obs)
    (complete : sim_state -> string -> string -> Point -> Prop) : Prop := {
  run_completes : forall p name dir n mpi fd s s1 s2,
    create_problem p name dir s = (s1, None) ->
    run_simulation name n mpi fd dir s1 = (s2, None) ->
    complete s2 dir name p;
  create_keeps : forall s dir name p q name' s',
    complete s dir name p -> name' <> name ->
    create_problem q name' dir s = (s', None) ->
    complete s' dir name p;
  run_keeps : forall s dir name p name' n mpi fd s',
    complete s dir name p -> name' <> name ->
    run_simulation name' n mpi fd dir s = (s', None) ->
    complete s' dir name p;
  extract_complete : forall s dir name p,
    complete s dir name p -> compute_moment name dir s = inr (moment p)
}.

Definition stub_complete (s : Stub.simulator) (dir name : string) (p : Point) : Prop :=
  Stub.cases s !! (dir, name) = Some (Stub.mkCase p true).

(** ** Collaborators that fail

    Modelled from the spec: the failures section 7 names for the sampler and
    the surrogate (FitFailure and the like), none of whose code is in the
    repository; the simulator is the one of [Stub]. *)
Module Faulty.

Inductive fault : Type :=
| fit_fails
| learning_fails
| prediction_fails
| sampler_raises
| sampler_gives_no_row.

Definition sample (f : fault) (n : Z) (r : Z) : exn + (Design * Z) :=
  match f with
  | sampler_raises => inl (Raised "SamplerError")
  | sampler_gives_no_row => inr ([], r)
  | _ => Stub.sample true n r
  end.

Definition fit (f : fault) (inputs : Design) (targets : list Obs)
  : exn + (Design * list Obs) :=
  match f with
  | fit_fails => inl (Raised "FitFailure")
  | _ => Stub.fit inputs targets
  end.

Definition learn (f : fault) (gp : Design * list Obs) : exn + (Design * list Obs) :=
  match f with
  | learning_fails => inl (Raised "FitFailure")
  | _ => inr gp
  end.

Definition predict (f : fault) (gp : Design * list Obs) (testing : Design)
  : exn + list Prediction :=
  match f with
  | prediction_fails => inl (Raised "PredictionFailure")
  | _ => inr (map (fun p => mkPrediction (Stub.moment p) 1) testing)
  end.

(** Modelled from the spec: as [Stub.collaborators], with the one fault. *)
Definition collaborators (f : fault) : Collaborators := {|
  rng_state := Z;
  sim_state := Stub.simulator;
  emulator := Design * list Obs;
  np_random_seed := fun seed => seed;
  ed_sample := sample f;
  create_problem := Stub.create_case;
  run_simulation := Stub.run_case;
  compute_moment := Stub.extract_observation;
  GaussianProcess := fit f;
  learn_hyperparameters := learn f;
  gp_predict := predict f
|}.

(** A process started in [/home/user] where the design [d] is on disk and
    its cases have been run in the working directory. *)
Definition world_after_batch (f : fault) (d : Design) : @World (collaborators f) :=
  @mkWorld (collaborators f) ["home"; "user"]
    (<[["home"; "user"; "input_points.npy"] := d]> ∅) 0
    (Stub.mkSimulator
       (list_to_map
          (imap (fun i p => ((".", format_simulation (Z.of_nat i + 1)),
                             Stub.mkCase p true)) d)) [])
    [].

End Faulty.

(** ** The built-ins on examples *)

Example str_of_int_12 : Py.str_of_int 12 = "12".
Proof. reflexivity. Qed.

Example int_examples :
  map Py.int ["12"; " +1_000 "; "-3"; "0"; "007"; "abc"; "3.5"; "1__0"; "_1"; "1_"; "+"; "+ 1"; "12 3"]
  = [Some 12; Some 1000; Some (-3); Some 0; Some 7; None; None; None; None; None; None; None; None].
Proof. reflexivity. Qed.

Example join_examples :
  map (fun a => Py.join a "input_points.npy") ["results"; "results/"; "."; "/tmp/out"]
  = ["results/input_points.npy"; "results/input_points.npy"; "./input_points.npy";
     "/tmp/out/input_points.npy"].
Proof. reflexivity. Qed.

Example resolve_examples :
  map (Py.resolve ["home"; "user"])
      ["input_points.npy"; "./input_points.npy"; "results/input_points.npy";
       "/tmp/out/x.npy"; "../user/./input_points.npy"; "results/../input_points.npy"]
  = [["home"; "user"; "input_points.npy"]; ["home"; "user"; "input_points.npy"];
     ["home"; "user"; "results"; "input_points.npy"]; ["tmp"; "out"; "x.npy"];
     ["home"; "user"; "input_points.npy"]; ["home"; "user"; "input_points.npy"]].
Proof. reflexivity. Qed.

(** ** Case names *)

Lemma to_int_proper (n : Z) :
  Z.to_int n <> Decimal.Pos Decimal.Nil /\ Z.to_int n <> Decimal.Neg Decimal.Nil.
Proof.
  destruct n as [|p|p]; simpl; split; try discriminate;
    intros [= H]; by apply (DecimalPos.Unsigned.to_uint_nonnil p).
Qed.

Lemma str_of_int_inj (a b : Z) : Py.str_of_int a = Py.str_of_int b -> a = b.
Proof.
  unfold Py.str_of_int. intros H.
  apply DecimalZ.to_int_inj.
  apply (f_equal NilZero.int_of_string) in H.
  destruct (to_int_proper a), (to_int_proper b).
  rewrite !NilZero.isi in H by assumption. congruence.
Qed.

(** Distinct counters give distinct case names. *)
Lemma format_simulation_inj (a b : Z) :
  format_simulation a = format_simulation b -> a = b.
Proof.
  unfold format_simulation. simpl. intros [= H]. by apply str_of_int_inj.
Qed.

(** The reserved name is no batch case name. *)
Lemma known_value_reserved (i : Z) : "known_value" <> format_simulation i.
Proof. unfold format_simulation. simpl. discriminate. Qed.

Lemma case_names_length first d : length (case_names first d) = length d.
Proof. unfold case_names. apply length_imap. Qed.

Lemma case_names_lookup first d (i : nat) (p : Point) :
  d !! i = Some p ->
  case_names first d !! i = Some (format_simulation (Z.of_nat i + first)).
Proof. intros H. unfold case_names. rewrite list_lookup_imap, H. reflexivity. Qed.

Lemma case_names_NoDup first d : NoDup (case_names first d).
Proof.
  apply NoDup_alt. intros i j x Hi Hj.
  unfold case_names in *. rewrite list_lookup_imap in Hi, Hj.
  destruct (d !! i); [|done]. destruct (d !! j); [|done].
  simpl in *. assert (Z.of_nat i + first = Z.of_nat j + first); [|lia].
  apply format_simulation_inj. congruence.
Qed.

(** ** Properties of the loops *)

Section Loops.

Context `{C : Collaborators}.
Variables mpi_exec fdfault_exec results_dir : string.

Lemma batch_events_cons first point d :
  batch_events first (point :: d) mpi_exec fdfault_exec results_dir
  = case_events point (format_simulation first) mpi_exec fdfault_exec results_dir
    ++ batch_events (first + 1) d mpi_exec fdfault_exec results_dir.
Proof.
  unfold batch_events, case_events. rewrite imap_cons.
  change (Z.of_nat 0 + first) with first. cbn [concat app]. do 3 f_equal.
  apply imap_ext. intros i x _. cbv [compose].
  by replace (Z.of_nat (S i) + first) with (Z.of_nat i + (first + 1)) by lia.
Qed.

Lemma case_names_cons first point d :
  case_names first (point :: d)
  = format_simulation first :: case_names (first + 1) d.
Proof.
  unfold case_names. rewrite imap_cons.
  change (Z.of_nat 0 + first) with first. f_equal.
  apply imap_ext. intros i x _. cbv [compose].
  by replace (Z.of_nat (S i) + first) with (Z.of_nat i + (first + 1)) by lia.
Qed.

(** The batch loop touches neither the working directory, nor the files,
    nor the random state; what it logs is an initial segment of the
    batch, the whole of it when the loop completes. *)
Lemma simulation_loop_spec d : forall counter w w' r,
  simulation_loop d counter mpi_exec fdfault_exec results_dir w = (w', r) ->
  cwd w' = cwd w /\ files w' = files w /\ rng w' = rng w /\
  exists evs,
    log w' = log w ++ evs /\
    evs `prefix_of` batch_events counter d mpi_exec fdfault_exec results_dir /\
    match r with
    | inr c => c = counter + Z.of_nat (length d) /\
               evs = batch_events counter d mpi_exec fdfault_exec results_dir
    | inl _ => True
    end.
Proof.
  induction d as [|point rest IH]; intros counter w w' r H.
  - injection H as <- <-. do 3 (split; [reflexivity|]).
    exists []. rewrite app_nil_r. repeat split; [done | simpl; lia].
  - rewrite batch_events_cons.
    cbn [simulation_loop] in H. unfold bind, do_create_problem, do_run_simulation in H.
    destruct (create_problem point (format_simulation counter) results_dir (sim w))
      as [s1 [e1|]] eqn:Hc.
    { injection H as <- <-. do 3 (split; [reflexivity|]).
      exists [ev_create_problem point (format_simulation counter) results_dir].
      split; [reflexivity|]. split; [|exact I].
      apply prefix_app_r. by apply prefix_cons, prefix_nil. }
    cbn [sim set_sim record_event] in H.
    destruct (run_simulation (format_simulation counter) 4 mpi_exec fdfault_exec
                results_dir s1) as [s2 [e2|]] eqn:Hr.
    { injection H as <- <-. do 3 (split; [reflexivity|]).
      exists (case_events point (format_simulation counter) mpi_exec fdfault_exec
                results_dir).
      split; [cbn; by rewrite <- app_assoc|].
      split; [|exact I]. by apply prefix_app_r. }
    apply IH in H. destruct H as (Hcwd & Hfiles & Hrng & evs & Hlog & Hpre & Hres).
    rewrite Hcwd, Hfiles, Hrng. do 3 (split; [reflexivity|]).
    exists (case_events point (format_simulation counter) mpi_exec fdfault_exec
              results_dir ++ evs).
    split; [rewrite Hlog; cbn; by rewrite <- !app_assoc|].
    split; [by apply prefix_app|].
    destruct r as [e|c].
    + exact I.
    + destruct Hres as [-> ->]. split; [simpl length; lia | reflexivity].
Qed.

(** The aggregation loop only reads: it asks for the moment of each case,
    in row order, and stops at the first one that is not there. *)
Lemma analysis_loop_spec d : forall counter acc w w' r,
  analysis_loop d counter acc results_dir w = (w', r) ->
  cwd w' = cwd w /\ files w' = files w /\ rng w' = rng w /\ sim w' = sim w /\
  exists evs,
    log w' = log w ++ evs /\
    evs `prefix_of`
      map (fun name => ev_compute_moment name results_dir) (case_names counter d) /\
    match r with
    | inr results =>
        evs = map (fun name => ev_compute_moment name results_dir)
                (case_names counter d) /\
        exists os,
          results = acc ++ os /\ length os = length d /\
          forall (i : nat) o, os !! i = Some o ->
            compute_moment (format_simulation (Z.of_nat i + counter)) results_dir (sim w)
            = inr o
    | inl e =>
        exists i : nat,
          (i < length d)%nat /\
          compute_moment (format_simulation (Z.of_nat i + counter)) results_dir (sim w)
          = inl e /\
          forall j : nat, (j < i)%nat ->
            exists o,
              compute_moment (format_simulation (Z.of_nat j + counter)) results_dir
                (sim w)
              = inr o
    end.
Proof.
  induction d as [|point rest IH]; intros counter acc w w' r H.
  - injection H as <- <-. do 4 (split; [reflexivity|]).
    exists []. rewrite app_nil_r. do 3 (split; [done|]).
    exists []. rewrite app_nil_r. repeat split. intros i o Hi. done.
  - rewrite case_names_cons.
    cbn [analysis_loop] in H. unfold bind, do_compute_moment in H.
    destruct (compute_moment (format_simulation counter) results_dir (sim w))
      as [e|o] eqn:Hm.
    { injection H as <- <-. do 4 (split; [reflexivity|]).
      exists [ev_compute_moment (format_simulation counter) results_dir].
      split; [reflexivity|]. split; [by apply prefix_cons, prefix_nil|].
      exists 0%nat. split; [simpl; lia|]. split; [exact Hm|]. intros j Hj. lia. }
    apply IH in H. cbn [cwd files rng sim log record_event] in H.
    destruct H as (Hcwd & Hfiles & Hrng & Hsim & evs & Hlog & Hpre & Hres).
    do 4 (split; [assumption|]).
    exists (ev_compute_moment (format_simulation counter) results_dir :: evs).
    split; [rewrite Hlog; by rewrite <- app_assoc|].
    split; [by apply prefix_cons|].
    destruct r as [e|results].
    + destruct Hres as (i & Hi & Hfail & Hbefore).
      exists (S i). split; [simpl; lia|]. split.
      { by replace (Z.of_nat (S i) + counter) with (Z.of_nat i + (counter + 1)) by lia. }
      intros [|j] Hj; [by exists o|].
      replace (Z.of_nat (S j) + counter) with (Z.of_nat j + (counter + 1)) by lia.
      apply Hbefore. lia.
    + destruct Hres as (-> & os & -> & Hlen & Hall). split; [reflexivity|].
      exists (o :: os). split; [by rewrite <- app_assoc|].
      split; [simpl; by rewrite Hlen|].
      intros [|i] o' Hi; [by injection Hi as <-|].
      replace (Z.of_nat (S i) + counter) with (Z.of_nat i + (counter + 1)) by lia.
      by apply Hall.
Qed.

End Loops.

(** ** The batch driver *)

Section Batch.

Context `{C : Collaborators}.

Lemma batch_events_dispatch first d mpi_exec fdfault_exec results_dir :
  Forall (fun e => is_dispatch e = true)
    (batch_events first d mpi_exec fdfault_exec results_dir).
Proof.
  revert first. induction d as [|p d IH]; intros first; [constructor|].
  rewrite batch_events_cons. apply Forall_app. split; [|apply IH].
  by repeat constructor.
Qed.

Lemma dispatch_not_save evs :
  Forall (fun e => is_dispatch e = true) evs ->
  Forall (fun e => is_save e = false) evs.
Proof. intros H. eapply Forall_impl; [exact H|]. by intros []. Qed.

(** [run_mogp_simulation] step by step: the design is the one the sampler
    gives from the fixed seed; it is saved, under the working directory,
    once the loop is through, and not at all otherwise. *)
Lemma run_mogp_simulation_spec sample_points mpi_exec fdfault_exec results_dir w w' r :
  run_mogp_simulation sample_points mpi_exec fdfault_exec results_dir w = (w', r) ->
  cwd w' = cwd w /\
  match ed_sample sample_points (np_random_seed 157374) with
  | inl e =>
      r = inl e /\ files w' = files w /\
      log w' = log w ++ [ev_seed 157374; ev_sample sample_points]
  | inr (d, _) =>
      exists evs,
        evs `prefix_of` batch_events 1 d mpi_exec fdfault_exec results_dir /\
        match r with
        | inr _ =>
            evs = batch_events 1 d mpi_exec fdfault_exec results_dir /\
            files w' = <[saved_file (cwd w) := d]> (files w) /\
            log w' = log w ++ [ev_seed 157374; ev_sample sample_points] ++ evs
                           ++ [ev_save "input_points.npy" d]
        | inl _ =>
            files w' = files w /\
            log w' = log w ++ [ev_seed 157374; ev_sample sample_points] ++ evs
        end
  end.
Proof.
  unfold run_mogp_simulation, bind, do_seed, do_sample.
  cbn [rng set_rng record_event]. intros H.
  destruct (ed_sample sample_points (np_random_seed 157374)) as [e|[d rg]].
  { injection H as <- <-. cbn. rewrite <- app_assoc. done. }
  destruct (simulation_loop d 1 mpi_exec fdfault_exec results_dir _) as [w1 r1] eqn:Hloop.
  apply simulation_loop_spec in Hloop.
  cbn [cwd files rng log set_rng record_event] in Hloop.
  destruct Hloop as (Hcwd & Hfiles & _ & evs & Hlog & Hpre & Hres).
  destruct r1 as [e|c].
  - injection H as <- <-. split; [done|]. exists evs. split; [done|].
    split; [done|]. rewrite Hlog, <- !app_assoc. done.
  - destruct Hres as [_ ->]. unfold np_save in H. injection H as <- <-.
    cbn. split; [done|]. eexists. split; [done|]. split; [done|].
    unfold saved_file. rewrite Hcwd, Hfiles, Hlog, <- !app_assoc. done.
Qed.

End Batch.

(** ** The result aggregator *)

Section Aggregator.

Context `{C : Collaborators}.

(** The two calls of the case at row [i] sit at positions [2 i] and
    [2 i + 1] of the batch. *)
Lemma batch_events_lookup d : forall first (i : nat) (p : Point)
    mpi_exec fdfault_exec results_dir,
  d !! i = Some p ->
  batch_events first d mpi_exec fdfault_exec results_dir !! (2 * i)%nat
  = Some (ev_create_problem p (format_simulation (Z.of_nat i + first)) results_dir) /\
  batch_events first d mpi_exec fdfault_exec results_dir !! S (2 * i)
  = Some (ev_run_simulation (format_simulation (Z.of_nat i + first)) 4
            mpi_exec fdfault_exec results_dir).
Proof.
  induction d as [|q d IH]; intros first i p mpi_exec fdfault_exec results_dir Hi;
    [done|].
  rewrite batch_events_cons. destruct i as [|i].
  - injection Hi as ->. by split.
  - replace (2 * S i)%nat with (S (S (2 * i))) by lia.
    replace (Z.of_nat (S i) + first) with (Z.of_nat i + (first + 1)) by lia.
    apply (IH (first + 1)). exact Hi.
Qed.

Lemma load_training_set_spec results_dir w w' r :
  load_training_set results_dir w = (w', r) ->
  cwd w' = cwd w /\ files w' = files w /\ rng w' = rng w /\ sim w' = sim w /\
  match files w !! loaded_file (cwd w) results_dir with
  | None =>
      r = inl (FileNotFoundError (Py.join results_dir "input_points.npy")) /\
      log w' = log w ++ [ev_load (Py.join results_dir "input_points.npy")]
  | Some d =>
      (exists evs,
          log w' = log w ++ ev_load (Py.join results_dir "input_points.npy") :: evs /\
          evs `prefix_of`
            map (fun name => ev_compute_moment name results_dir) (case_names 1 d)) /\
      match r with
      | inr (input_points, results) =>
          input_points = d /\ length results = length d /\
          log w' = log w ++ ev_load (Py.join results_dir "input_points.npy")
                         :: map (fun name => ev_compute_moment name results_dir)
                              (case_names 1 d) /\
          forall (i : nat) o, results !! i = Some o ->
            compute_moment (format_simulation (Z.of_nat i + 1)) results_dir (sim w)
            = inr o
      | inl e =>
          exists i : nat,
            (i < length d)%nat /\
            compute_moment (format_simulation (Z.of_nat i + 1)) results_dir (sim w)
            = inl e /\
            forall j : nat, (j < i)%nat ->
              exists o,
                compute_moment (format_simulation (Z.of_nat j + 1)) results_dir (sim w)
                = inr o
      end
  end.
Proof.
  unfold load_training_set, bind, np_load, loaded_file. intros H.
  destruct (files w !! Py.resolve (cwd w) (Py.join results_dir "input_points.npy"))
    as [d|].
  2:{ injection H as <- <-. done. }
  destruct (analysis_loop d 1 [] results_dir _) as [w1 r1] eqn:Hloop.
  apply analysis_loop_spec in Hloop.
  cbn [cwd files rng sim log record_event] in Hloop.
  destruct Hloop as (Hcwd & Hfiles & Hrng & Hsim & evs & Hlog & Hpre & Hres).
  destruct r1 as [e|results]; injection H as <- <-.
  - do 4 (split; [assumption|]). split; [|exact Hres].
    exists evs. split; [rewrite Hlog; by rewrite <- app_assoc | done].
  - do 4 (split; [assumption|]). split.
    + exists evs. split; [rewrite Hlog; by rewrite <- app_assoc | done].
    + destruct Hres as (-> & os & -> & Hlen & Hall).
      do 2 (split; [done|]). split; [|done]. rewrite Hlog. by rewrite <- app_assoc.
Qed.

End Aggregator.

(** ** Persistence of the design *)

(** The file written by the batch driver is the only one it changes. *)
Lemma run_mogp_simulation_files `{C : Collaborators}
    sample_points mpi_exec fdfault_exec results_dir (w w' : World) r :
  run_mogp_simulation sample_points mpi_exec fdfault_exec results_dir w = (w', r) ->
  forall file, file <> saved_file (cwd w) -> files w' !! file = files w !! file.
Proof.
  intros H file Hfile. apply run_mogp_simulation_spec in H. destruct H as [_ H].
  destruct (ed_sample sample_points (np_random_seed 157374)) as [e|[d rg]].
  - destruct H as (_ & -> & _). done.
  - destruct H as (evs & _ & H). destruct r as [e|[]].
    + destruct H as [-> _]. done.
    + destruct H as (_ & -> & _). by rewrite lookup_insert_ne.
Qed.

(** When the output directory is the working directory the analysis finds
    the design the batch has just written. *)
Lemma design_round_trip_in_cwd `{C : Collaborators}
    sample_points mpi_exec fdfault_exec results_dir (w w' : World) :
  loaded_file (cwd w) results_dir = saved_file (cwd w) ->
  run_mogp_simulation sample_points mpi_exec fdfault_exec results_dir w = (w', inr tt) ->
  exists d rg,
    ed_sample sample_points (np_random_seed 157374) = inr (d, rg) /\
    np_load (Py.join results_dir "input_points.npy") w'
    = (record_event (ev_load (Py.join results_dir "input_points.npy")) w', inr d).
Proof.
  intros Hsame H. apply run_mogp_simulation_spec in H. destruct H as [Hcwd H].
  destruct (ed_sample sample_points (np_random_seed 157374)) as [e|[d rg]].
  { by destruct H as [[=] _]. }
  destruct H as (evs & _ & _ & Hfiles & _). exists d, rg. split; [done|].
  unfold np_load. unfold loaded_file in Hsame.
  by rewrite Hcwd, Hsame, Hfiles, lookup_insert_eq.
Qed.

(** C1: at [results_dir = "results"] with two sample points the batch
    completes and writes the design to [input_points.npy] in the working
    directory; nothing is written to [results/input_points.npy], and the
    analysis run on [results] that follows ends with [FileNotFoundError]:
    the design is not persisted into the given output directory. *)
Theorem C1_design_saved_outside_results_dir :
  let C := Stub.collaborators false 1 in
  let w0 := Stub.world0 false 1 [] in
  let w1 := fst (run_mogp_simulation 2 "mpirun" "fdfault" "results" w0) in
  snd (run_mogp_simulation 2 "mpirun" "fdfault" "results" w0) = inr tt /\
  files w1 !! ["home"; "user"; "input_points.npy"]
  = Some [Stub.point_of 157374; Stub.point_of 157375] /\
  loaded_file (cwd w1) "results" = ["home"; "user"; "results"; "input_points.npy"] /\
  files w1 !! loaded_file (cwd w1) "results" = None /\
  snd (run_mogp_analysis "mpirun" "fdfault" "results" w1)
  = inl (FileNotFoundError "results/input_points.npy").
Proof. vm_compute. repeat split. Qed.

(** ** Failure of a case *)

(** C9: when the construction or the execution of a case raises in the
    batch loop, [run_mogp_simulation] ends with that exception, the files on
    disk are the ones found at the start and no [np.save] was made; in a run
    that completes, the save is the last call, after the two calls of every
    case of the design. *)
Theorem C9_failed_batch_writes_no_design `{C : Collaborators}
    sample_points mpi_exec fdfault_exec results_dir (w : World) :
  (forall d w1 w2 e,
      (do_seed 157374 ;; do_sample sample_points) w = (w1, inr d) ->
      simulation_loop d 1 mpi_exec fdfault_exec results_dir w1 = (w2, inl e) ->
      run_mogp_simulation sample_points mpi_exec fdfault_exec results_dir w = (w2, inl e) /\
      files w2 = files w /\
      exists evs, log w2 = log w ++ evs /\ Forall (fun ev => is_save ev = false) evs) /\
  (forall w',
      run_mogp_simulation sample_points mpi_exec fdfault_exec results_dir w = (w', inr tt) ->
      exists d,
        length (batch_events 1 d mpi_exec fdfault_exec results_dir) = (2 * length d)%nat /\
        log w' = log w ++ [ev_seed 157374; ev_sample sample_points]
                       ++ batch_events 1 d mpi_exec fdfault_exec results_dir
                       ++ [ev_save "input_points.npy" d]).
Proof.
  split.
  - intros d w1 w2 e Hdraw Hloop.
    assert (Hrun : run_mogp_simulation sample_points mpi_exec fdfault_exec results_dir w
                   = (w2, inl e)).
    { unfold run_mogp_simulation. unfold bind in *.
      destruct (do_seed 157374 w) as [wa [ea|[]]]; [done|].
      destruct (do_sample sample_points wa) as [wb [eb|d']]; [done|].
      injection Hdraw as -> ->. by rewrite Hloop. }
    split; [exact Hrun|].
    apply run_mogp_simulation_spec in Hrun. destruct Hrun as [_ Hrun].
    destruct (ed_sample sample_points (np_random_seed 157374)) as [e'|[d' rg]].
    + destruct Hrun as (_ & -> & ->). split; [done|].
      eexists. split; [done|]. by repeat constructor.
    + destruct Hrun as (evs & Hpre & -> & ->). split; [done|].
      eexists. split; [done|]. repeat constructor.
      apply dispatch_not_save. destruct Hpre as [k Hk].
      pose proof (batch_events_dispatch 1 d' mpi_exec fdfault_exec results_dir) as Hd.
      rewrite Hk in Hd. apply Forall_app in Hd. tauto.
  - intros w' Hrun. apply run_mogp_simulation_spec in Hrun. destruct Hrun as [_ Hrun].
    destruct (ed_sample sample_points (np_random_seed 157374)) as [e'|[d' rg]].
    { by destruct Hrun as [[=] _]. }
    destruct Hrun as (evs & _ & -> & _ & ->). exists d'. split; [|done].
    unfold batch_events. clear. generalize 1. induction d' as [|p d' IH]; intros first.
    + done.
    + rewrite imap_cons. cbn [concat length app case_events].
      rewrite <- (imap_ext (fun i point => case_events point
                 (format_simulation (Z.of_nat i + (first + 1))) mpi_exec fdfault_exec
                 results_dir)); [rewrite IH; lia|].
      intros i x _. cbv [compose].
      by replace (Z.of_nat (S i) + first) with (Z.of_nat i + (first + 1)) by lia.
Qed.

Lemma C9_witness :
  let C := Stub.collaborators false 1 in
  let w0 := Stub.world0 false 1 ["simulation_2"] in
  let w2 := fst (run_mogp_simulation 3 "mpirun" "fdfault" "results" w0) in
  run_mogp_simulation 3 "mpirun" "fdfault" "results" w0
  = (w2, inl (Raised "SimulationFailure")) /\
  files w2 = files w0.
Proof.
  intros C w0 w2.
  pose (w1 := fst ((do_seed 157374 ;; do_sample 3) w0)).
  pose (d := [Stub.point_of 157374; Stub.point_of 157375; Stub.point_of 157376]).
  destruct (C9_failed_batch_writes_no_design (C := C) 3 "mpirun" "fdfault" "results" w0)
    as [H _].
  destruct (H d w1 w2 (Raised "SimulationFailure")) as (H1 & H2 & _).
  - vm_compute. reflexivity.
  - vm_compute. reflexivity.
  - split; assumption.
Defined.

(** ** Determinism of the batch *)

(** C5: the batch driver seeds numpy's generator with 157374 before it
    samples, so the random state it is started in has no influence on the
    run, and two runs with the same sample count that complete, from any
    two states of the process, save the same design. *)
Theorem C5_batch_design_is_deterministic `{C : Collaborators} (sample_points : Z) :
  (forall mpi_exec fdfault_exec results_dir (w : World) (r0 : rng_state),
      run_mogp_simulation sample_points mpi_exec fdfault_exec results_dir (set_rng r0 w)
      = run_mogp_simulation sample_points mpi_exec fdfault_exec results_dir w) /\
  (forall mpi_exec fdfault_exec results_dir mpi_exec' fdfault_exec' results_dir'
          (w1 w1' w2 w2' : World),
      run_mogp_simulation sample_points mpi_exec fdfault_exec results_dir w1
      = (w1', inr tt) ->
      run_mogp_simulation sample_points mpi_exec' fdfault_exec' results_dir' w2
      = (w2', inr tt) ->
      exists d,
        files w1' !! saved_file (cwd w1') = Some d /\
        files w2' !! saved_file (cwd w2') = Some d /\
        last (log w1') = Some (ev_save "input_points.npy" d) /\
        last (log w2') = Some (ev_save "input_points.npy" d)).
Proof.
  split; [reflexivity|].
  intros mpi_exec fdfault_exec results_dir mpi_exec' fdfault_exec' results_dir'
    w1 w1' w2 w2' H1 H2.
  apply run_mogp_simulation_spec in H1, H2.
  destruct H1 as [Hcwd1 H1], H2 as [Hcwd2 H2].
  destruct (ed_sample sample_points (np_random_seed 157374)) as [e|[d rg]].
  { by destruct H1 as [[=] _]. }
  destruct H1 as (evs1 & _ & _ & Hf1 & Hl1), H2 as (evs2 & _ & _ & Hf2 & Hl2).
  exists d. rewrite Hcwd1, Hcwd2, Hf1, Hf2, Hl1, Hl2, !lookup_insert_eq.
  repeat split; rewrite !app_assoc; apply last_snoc.
Qed.

Lemma C5_witness :
  let C := Stub.collaborators false 1 in
  let w1 := Stub.world0 false 1 [] in
  let w2 := set_rng 99 (fst (run_mogp_simulation 2 "mpirun" "fdfault" "out" w1)) in
  exists d,
    files (fst (run_mogp_simulation 2 "mpirun" "fdfault" "results" w1))
      !! ["home"; "user"; "input_points.npy"] = Some d /\
    files (fst (run_mogp_simulation 2 "mpiexec" "fdfault" "again" w2))
      !! ["home"; "user"; "input_points.npy"] = Some d.
Proof.
  intros C w1 w2.
  destruct (C5_batch_design_is_deterministic (C := C) 2) as [_ H].
  destruct (H "mpirun" "fdfault" "results" "mpiexec" "fdfault" "again" w1
              (fst (run_mogp_simulation 2 "mpirun" "fdfault" "results" w1)) w2
              (fst (run_mogp_simulation 2 "mpiexec" "fdfault" "again" w2)))
    as (d & H1 & H2 & _).
  - vm_compute. reflexivity.
  - vm_compute. reflexivity.
  - exists d. split; assumption.
Defined.

(** ** The entry point *)

(** C10: with a first argument that is neither [run_simulation] nor
    [analysis] the script makes no call, prints nothing, leaves the state of
    the process as it found it and ends normally. *)
Theorem C10_unrecognized_mode_is_a_no_op `{C : Collaborators} `{B : Builtins}
    (argv : list string) (mood : string) (w : World) :
  argv !! 1%nat = Some mood ->
  mood <> "run_simulation" ->
  mood <> "analysis" ->
  main argv w = (w, inr tt).
Proof.
  intros Harg H1 H2. unfold main, argv_at, index, bind. rewrite Harg. unfold ret.
  destruct (String.eqb_spec mood "run_simulation") as [|_]; [done|].
  destruct (String.eqb_spec mood "analysis") as [|_]; [done|].
  reflexivity.
Qed.

Lemma C10_witness :
  let C := Stub.collaborators false 1 in
  let B := Stub.builtins in
  let w0 := Stub.world0 false 1 [] in
  main ["run.py"; "plot"; "mpirun"; "fdfault"; "results"; "5"] w0 = (w0, inr tt).
Proof.
  intros C B w0.
  apply (C10_unrecognized_mode_is_a_no_op (C := C) (B := B) _ "plot" w0).
  - reflexivity.
  - discriminate.
  - discriminate.
Defined.

Lemma C3_counterexample :
  Py.int "0" = Some 0 /\ Py.int "-3" = Some (-3) /\
  (let C := Stub.collaborators false 1 in
   let B := Stub.builtins in
   let w0 := Stub.world0 false 1 [] in
   let run arg := main ["run.py"; "run_simulation"; "mpirun"; "fdfault"; "results"; arg] w0 in
   ~ invalid_input_reported
       ["run.py"; "run_simulation"; "mpirun"; "fdfault"; "results"; "0"] w0 /\
   snd (run "0") = inr tt /\
   snd (run "-3") = inr tt /\
   files (fst (run "0")) !! ["home"; "user"; "input_points.npy"] = Some []) /\
  (let C := Stub.collaborators true 1 in
   let B := Stub.builtins in
   let w0 := Stub.world0 true 1 [] in
   let run arg := main ["run.py"; "run_simulation"; "mpirun"; "fdfault"; "results"; arg] w0 in
   ~ invalid_input_reported
       ["run.py"; "run_simulation"; "mpirun"; "fdfault"; "results"; "0"] w0 /\
   snd (run "0") = inl (Raised "AssertionError") /\
   drop 2 (log (fst (run "0"))) = [ev_seed 157374; ev_sample 0]).
Proof.
  split; [reflexivity|]. split; [reflexivity|]. split.
  - intros C B w0 run. split; [|by vm_compute].
    unfold invalid_input_reported. intros H.
    apply (f_equal snd) in H. vm_compute in H. discriminate H.
  - intros C B w0 run. split; [|by vm_compute].
    unfold invalid_input_reported. intros H.
    apply (f_equal snd) in H. vm_compute in H. discriminate H.
Qed.

(** C3 (amended): the entry point refuses exactly the texts for which
    [int()] raises [ValueError]: it prints the message and exits before any
    other call is made.  A text [int()] converts, to zero or to a negative
    number as well, is handed to [run_mogp_simulation] as that integer,
    after the two echo lines. *)
Theorem C3_only_non_integer_text_is_refused `{C : Collaborators} `{B : Builtins}
    (prog mpi_exec fdfault_exec results_dir arg : string) (rest : list string)
    (w : World) :
  let argv := prog :: "run_simulation" :: mpi_exec :: fdfault_exec :: results_dir
                   :: arg :: rest in
  (py_int arg = None -> invalid_input_reported argv w) /\
  (forall sample_points, py_int arg = Some sample_points ->
     main argv w
     = (print (nl +:+ tab +:+ tab +:+ "mood = " +:+ "run_simulation" +:+ tab
               +:+ "<class 'str'>") ;;
        print (tab +:+ tab +:+ "sample_points = " +:+ Py.str_of_int sample_points
               +:+ tab +:+ "<class 'int'>") ;;
        run_mogp_simulation sample_points mpi_exec fdfault_exec results_dir) w).
Proof.
  intros argv. split.
  - intros H. unfold invalid_input_reported, argv, main, argv_at, index, bind.
    cbn [lookup list_lookup ret]. unfold ret at 1. cbn [String.eqb Ascii.eqb Bool.eqb].
    unfold ret. rewrite H. reflexivity.
  - intros n H. unfold argv, main, argv_at, index, bind.
    cbn [lookup list_lookup ret]. unfold ret at 1. cbn [String.eqb Ascii.eqb Bool.eqb].
    unfold ret. rewrite H. reflexivity.
Qed.

Lemma C3_witness :
  let C := Stub.collaborators true 1 in
  let B := Stub.builtins in
  let w0 := Stub.world0 true 1 [] in
  py_int "abc" = None /\
  invalid_input_reported
    ["run.py"; "run_simulation"; "mpirun"; "fdfault"; "results"; "abc"] w0 /\
  py_int "2" = Some 2 /\
  main ["run.py"; "run_simulation"; "mpirun"; "fdfault"; "results"; "2"] w0
  = (print (nl +:+ tab +:+ tab +:+ "mood = " +:+ "run_simulation" +:+ tab
            +:+ "<class 'str'>") ;;
     print (tab +:+ tab +:+ "sample_points = " +:+ Py.str_of_int 2
            +:+ tab +:+ "<class 'int'>") ;;
     run_mogp_simulation 2 "mpirun" "fdfault" "results") w0.
Proof.
  intros C B w0. split; [reflexivity|]. split.
  - apply (C3_only_non_integer_text_is_refused (C := C) (B := B)
             "run.py" "mpirun" "fdfault" "results" "abc" [] w0).
    reflexivity.
  - split; [reflexivity|].
    apply (C3_only_non_integer_text_is_refused (C := C) (B := B)
             "run.py" "mpirun" "fdfault" "results" "2" [] w0).
    reflexivity.
Defined.

(** ** Missing cases *)

(** C6: with a design of [N] rows on disk, if the moment of some case
    [simulation_i], [1 <= i <= N], cannot be computed, the aggregation ends
    with the exception [compute_moment] raised for the first such case and
    [run_mogp_analysis] ends with it at that point, with no training set; if
    the moment of every case is there, the aggregation returns the design
    with exactly [N] observations, the one at row [i] being that of
    [simulation_(i+1)]. *)
Theorem C6_missing_case_aborts_aggregation `{C : Collaborators}
    (mpi_exec fdfault_exec results_dir : string) (d : Design) (w : World) :
  files w !! loaded_file (cwd w) results_dir = Some d ->
  (forall (i : nat) e,
      (1 <= i <= length d)%nat ->
      compute_moment (format_simulation (Z.of_nat i)) results_dir (sim w) = inl e ->
      exists (j : nat) e',
        (1 <= j <= i)%nat /\
        compute_moment (format_simulation (Z.of_nat j)) results_dir (sim w) = inl e' /\
        snd (load_training_set results_dir w) = inl e' /\
        run_mogp_analysis mpi_exec fdfault_exec results_dir w
        = (fst (load_training_set results_dir w), inl e')) /\
  ((forall i : nat, (1 <= i <= length d)%nat ->
      exists o,
        compute_moment (format_simulation (Z.of_nat i)) results_dir (sim w) = inr o) ->
   exists results,
     snd (load_training_set results_dir w) = inr (d, results) /\
     length results = length d /\
     forall (i : nat) o, results !! i = Some o ->
       compute_moment (format_simulation (Z.of_nat i + 1)) results_dir (sim w) = inr o).
Proof.
  intros Hfile.
  destruct (load_training_set results_dir w) as [w' r] eqn:Hload.
  pose proof (load_training_set_spec _ _ _ _ Hload) as Hspec.
  destruct Hspec as (_ & _ & _ & _ & Hspec). rewrite Hfile in Hspec.
  destruct Hspec as [_ Hres]. split.
  - intros i e Hi Hmiss. destruct r as [e'|[d' results]].
    + destruct Hres as (k & Hk & Hfail & Hbefore).
      exists (S k), e'.
      replace (Z.of_nat (S k)) with (Z.of_nat k + 1) by lia.
      split; [|split; [exact Hfail|split; [reflexivity|]]].
      * destruct (decide (k < i)%nat) as [|Hge]; [lia|].
        destruct (Hbefore (i - 1)%nat) as [o Ho]; [lia|].
        replace (Z.of_nat (i - 1) + 1) with (Z.of_nat i) in Ho by lia. congruence.
      * unfold run_mogp_analysis, bind. by rewrite Hload.
    + destruct Hres as (_ & Hlen & _ & Hall).
      destruct (lookup_lt_is_Some_2 results (i - 1)%nat) as [o Ho]; [lia|].
      apply Hall in Ho.
      replace (Z.of_nat (i - 1) + 1) with (Z.of_nat i) in Ho by lia. congruence.
  - intros Hall. destruct r as [e'|[d' results]].
    + destruct Hres as (k & Hk & Hfail & _).
      destruct (Hall (S k)) as [o Ho]; [lia|].
      replace (Z.of_nat (S k)) with (Z.of_nat k + 1) in Ho by lia. congruence.
    + destruct Hres as (-> & Hlen & _ & Hres). by exists results.
Qed.

Lemma C6_witness :
  let C := Stub.collaborators false 1 in
  let w0 := Stub.world0 false 1 ["simulation_3"] in
  let w1 := set_files (<[["home"; "user"; "input_points.npy"] :=
                         map Stub.point_of [1; 2; 3; 4; 5]]> ∅)
              (fst (run_mogp_simulation 5 "mpirun" "fdfault" "." w0)) in
  snd (load_training_set "." w1) = inl (Raised "MissingResult") /\
  snd (run_mogp_analysis "mpirun" "fdfault" "." w1) = inl (Raised "MissingResult").
Proof.
  intros C w0 w1.
  destruct (C6_missing_case_aborts_aggregation (C := C) "mpirun" "fdfault" "."
              (map Stub.point_of [1; 2; 3; 4; 5]) w1) as [H _].
  - vm_compute. reflexivity.
  - destruct (H 3%nat (Raised "MissingResult")) as (j & e' & _ & Hj & H1 & H2).
    + simpl. lia.
    + vm_compute. reflexivity.
    + assert (e' = Raised "MissingResult") as ->.
      { apply (f_equal snd) in H2. vm_compute in H2. congruence. }
      split; [exact H1|]. exact (f_equal snd H2).
Defined.

(** ** Alignment of rows and case names *)

(** The two loops agree on the names: the batch loop constructs and then
    executes the case of row [i] (from 0) under the name [simulation_(i+1)],
    one case after the other in row order, also when it is cut short by a
    failure; the aggregation loop asks for the moment of [simulation_(i+1)]
    for row [i] and returns one observation per row in that order; and two
    different numbers never give the same case name. *)
Lemma loops_agree_on_case_names `{C : Collaborators}
    (mpi_exec fdfault_exec results_dir : string) (d : Design) :
  (forall (w w' : World) c,
      simulation_loop d 1 mpi_exec fdfault_exec results_dir w = (w', inr c) ->
      log w' = log w ++ batch_events 1 d mpi_exec fdfault_exec results_dir) /\
  (forall (w w' : World) r,
      simulation_loop d 1 mpi_exec fdfault_exec results_dir w = (w', r) ->
      exists evs,
        log w' = log w ++ evs /\
        evs `prefix_of` batch_events 1 d mpi_exec fdfault_exec results_dir) /\
  (forall (i : nat) (p : Point),
      d !! i = Some p ->
      batch_events 1 d mpi_exec fdfault_exec results_dir !! (2 * i)%nat
      = Some (ev_create_problem p (format_simulation (Z.of_nat i + 1)) results_dir) /\
      batch_events 1 d mpi_exec fdfault_exec results_dir !! S (2 * i)
      = Some (ev_run_simulation (format_simulation (Z.of_nat i + 1)) 4
                mpi_exec fdfault_exec results_dir)) /\
  (forall (w w' : World) results,
      analysis_loop d 1 [] results_dir w = (w', inr results) ->
      length results = length d /\
      log w' = log w ++ map (fun name => ev_compute_moment name results_dir)
                          (case_names 1 d) /\
      forall (i : nat) (p : Point),
        d !! i = Some p ->
        exists o,
          results !! i = Some o /\
          compute_moment (format_simulation (Z.of_nat i + 1)) results_dir (sim w)
          = inr o) /\
  (forall i j : Z, format_simulation i = format_simulation j -> i = j).
Proof.
  split; [|split; [|split; [|split]]].
  - intros w w' c H. apply simulation_loop_spec in H.
    destruct H as (_ & _ & _ & evs & Hlog & _ & _ & ->). exact Hlog.
  - intros w w' r H. apply simulation_loop_spec in H.
    destruct H as (_ & _ & _ & evs & Hlog & Hpre & _). by exists evs.
  - intros i p Hi. by apply batch_events_lookup.
  - intros w w' results H. apply analysis_loop_spec in H.
    destruct H as (_ & _ & _ & _ & evs & Hlog & _ & -> & os & -> & Hlen & Hall).
    cbn [app] in *. split; [exact Hlen|]. split; [exact Hlog|].
    intros i p Hi.
    destruct (lookup_lt_is_Some_2 os i) as [o Ho].
    { rewrite Hlen. by apply lookup_lt_Some in Hi. }
    exists o. split; [exact Ho|]. by apply Hall.
  - apply format_simulation_inj.
Qed.

Lemma loops_agree_on_case_names_on_two_rows :
  let C := Stub.collaborators false 1 in
  let w0 := Stub.world0 false 1 [] in
  let d := [Stub.point_of 7; Stub.point_of 8] in
  let w1 := fst (simulation_loop d 1 "mpirun" "fdfault" "results" w0) in
  log w1
  = [ev_create_problem (Stub.point_of 7) "simulation_1" "results";
     ev_run_simulation "simulation_1" 4 "mpirun" "fdfault" "results";
     ev_create_problem (Stub.point_of 8) "simulation_2" "results";
     ev_run_simulation "simulation_2" 4 "mpirun" "fdfault" "results"] /\
  length (map Stub.moment d) = length d.
Proof.
  intros C w0 d w1.
  destruct (loops_agree_on_case_names (C := C) "mpirun" "fdfault" "results" d)
    as (Hbatch & _ & _ & Hagg & _).
  split.
  - apply (Hbatch w0 w1 3). vm_compute. reflexivity.
  - apply (Hagg w1 (fst (analysis_loop d 1 [] "results" w1)) (map Stub.moment d)).
    vm_compute. reflexivity.
Defined.

(** C2: at [results_dir = "results"], where a design of an earlier campaign
    is on disk, a batch of two points completes: its cases [simulation_1]
    and [simulation_2] are constructed from the two generated points, and the
    generated design goes to the working directory.  The analysis on
    [results] then loads the earlier design and pairs its rows with the
    moments of the cases of the generated points: the observation at row [i]
    is not the one of [Design[i]]. *)
Theorem C2_stale_design_breaks_alignment :
  let C := Stub.collaborators true 1 in
  let stale := [Stub.point_of 1; Stub.point_of 2] in
  let generated := [Stub.point_of 157374; Stub.point_of 157375] in
  let w0 := set_files (<[["home"; "user"; "results"; "input_points.npy"] := stale]> ∅)
              (Stub.world0 true 1 []) in
  let w1 := fst (run_mogp_simulation 2 "mpirun" "fdfault" "results" w0) in
  snd (run_mogp_simulation 2 "mpirun" "fdfault" "results" w0) = inr tt /\
  log w1 = [ev_seed 157374; ev_sample 2]
           ++ batch_events 1 generated "mpirun" "fdfault" "results"
           ++ [ev_save "input_points.npy" generated] /\
  files w1 !! ["home"; "user"; "input_points.npy"] = Some generated /\
  files w1 !! loaded_file (cwd w1) "results" = Some stale /\
  snd (load_training_set "results" w1) = inr (stale, map Stub.moment generated) /\
  Forall2 (fun o p => PrimFloat.eqb o (Stub.moment p) = false)
    (map Stub.moment generated) stale.
Proof. vm_compute. repeat split; repeat constructor. Qed.

(** With the reference collaborators and no failing case, the batch loop
    followed by the aggregation loop on the same directory pairs each row
    of the design with the moment of that very row. *)
Lemma stub_batch_state strict variance mpi_exec fdfault_exec results_dir (d : Design) :
  forall counter (w : @World (Stub.collaborators strict variance)),
    Stub.failing (sim w) = [] ->
    exists w' c,
      simulation_loop d counter mpi_exec fdfault_exec results_dir w = (w', inr c) /\
      Stub.failing (sim w') = [] /\
      (forall (i : nat) (p : Point), d !! i = Some p ->
         Stub.cases (sim w') !! (results_dir, format_simulation (Z.of_nat i + counter))
         = Some (Stub.mkCase p true)) /\
      (forall name, (forall i : nat, name <> format_simulation (Z.of_nat i + counter)) ->
         Stub.cases (sim w') !! (results_dir, name)
         = Stub.cases (sim w) !! (results_dir, name)).
Proof.
  induction d as [|p d IH]; intros counter w Hfail.
  - exists w, counter. split; [reflexivity|]. split; [done|]. split; [|done].
    intros i q Hi. done.
  - cbn [simulation_loop]. unfold bind, do_create_problem, do_run_simulation.
    cbn [create_problem run_simulation Stub.collaborators Stub.create_case Stub.run_case
         sim set_sim record_event Stub.cases Stub.failing].
    unfold Stub.run_case. cbn [Stub.cases Stub.failing].
    rewrite lookup_insert_eq, Hfail.
    cbn [Stub.case_point].
    rewrite bool_decide_eq_false_2 by apply not_elem_of_nil.
    cbn [sim set_sim record_event Stub.cases Stub.failing].
    match goal with |- context [simulation_loop d ?c _ _ _ ?w1] =>
      destruct (IH c w1) as (w' & c' & Hloop & Hfail' & Hin & Hout); [reflexivity|]
    end.
    exists w', c'. split; [exact Hloop|]. split; [exact Hfail'|]. split.
    + intros [|i] q Hi.
      * injection Hi as ->. rewrite Hout.
        -- cbn [sim Stub.cases]. rewrite insert_insert_eq. apply lookup_insert_eq.
        -- intros i Heq. apply format_simulation_inj in Heq. lia.
      * replace (Z.of_nat (S i) + counter) with (Z.of_nat i + (counter + 1)) by lia.
        by apply Hin.
    + intros name Hname. rewrite Hout.
      * cbn [sim Stub.cases]. rewrite insert_insert_eq. apply lookup_insert_ne.
        intros [= Heq]. apply (Hname 0%nat). by rewrite <- Heq.
      * intros i Heq. apply (Hname (S i)). rewrite Heq. f_equal. lia.
Qed.

Lemma stub_end_to_end_alignment strict variance mpi_exec fdfault_exec results_dir
    (d : Design) (w : @World (Stub.collaborators strict variance)) :
  Stub.failing (sim w) = [] ->
  exists w1 c w2,
    simulation_loop d 1 mpi_exec fdfault_exec results_dir w = (w1, inr c) /\
    analysis_loop d 1 [] results_dir w1 = (w2, inr (map Stub.moment d)).
Proof.
  intros Hfail.
  destruct (stub_batch_state strict variance mpi_exec fdfault_exec results_dir d 1 w Hfail)
    as (w1 & c & Hloop & _ & Hin & _).
  exists w1, c.
  destruct (analysis_loop d 1 [] results_dir w1) as [w2 r] eqn:Hagg.
  exists w2. split; [exact Hloop|]. f_equal.
  apply analysis_loop_spec in Hagg.
  destruct Hagg as (_ & _ & _ & _ & evs & _ & _ & Hres).
  assert (Hmoment : forall (i : nat) (p : Point), d !! i = Some p ->
            compute_moment (format_simulation (Z.of_nat i + 1)) results_dir (sim w1)
            = inr (Stub.moment p)).
  { intros i p Hi. cbn [compute_moment Stub.collaborators]. unfold Stub.extract_observation.
    by rewrite (Hin i p Hi). }
  destruct r as [e|results].
  - destruct Hres as (i & Hi & Hmiss & _).
    destruct (lookup_lt_is_Some_2 d i Hi) as [p Hp].
    rewrite (Hmoment i p Hp) in Hmiss. discriminate.
  - destruct Hres as (_ & os & -> & Hlen & Hall). f_equal. cbn [app].
    apply list_eq. intros i. rewrite list_lookup_fmap.
    destruct (d !! i) as [p|] eqn:Hp.
    + destruct (lookup_lt_is_Some_2 os i) as [o Ho].
      { rewrite Hlen. by apply lookup_lt_Some in Hp. }
      rewrite Ho. simpl. f_equal.
      apply Hall in Ho. rewrite (Hmoment i p Hp) in Ho. congruence.
    + simpl. apply lookup_ge_None. rewrite Hlen. by apply lookup_ge_None.
Qed.

(** ** The analysis run *)

(** A completed [run_mogp_analysis], call by call. *)
Lemma run_mogp_analysis_trace `{C : Collaborators}
    mpi_exec fdfault_exec results_dir (w w' : World) :
  run_mogp_analysis mpi_exec fdfault_exec results_dir w = (w', inr tt) ->
  exists d results gp gp' query_points rg1 predictions known_input rg2 p known_value rows,
    files w !! loaded_file (cwd w) results_dir = Some d /\
    length results = length d /\
    GaussianProcess d results = inr gp /\
    learn_hyperparameters gp = inr gp' /\
    ed_sample 1000 (rng w) = inr (query_points, rg1) /\
    gp_predict gp' query_points = inr predictions /\
    ed_sample 1 rg1 = inr (known_input, rg2) /\
    known_input !! 0%nat = Some p /\
    compute_moment "known_value" results_dir (sim w') = inr known_value /\
    take_rows query_points
      (get_NROY (mkHistoryMatching known_value query_points predictions 2))
    = Some rows /\
    files w' = files w /\
    log w'
    = log w
      ++ ev_load (Py.join results_dir "input_points.npy")
         :: map (fun name => ev_compute_moment name results_dir) (case_names 1 d)
      ++ [ev_fit d results; ev_learn_hyperparameters; ev_sample 1000;
          ev_predict query_points; ev_sample 1]
      ++ case_events p "known_value" mpi_exec fdfault_exec results_dir
      ++ [ev_compute_moment "known_value" results_dir;
          ev_print_point "Actual point:" p; ev_print "NROY:"; ev_print_rows rows].
Proof.
  intros H. unfold run_mogp_analysis in H. unfold bind at 1 in H.
  destruct (load_training_set results_dir w) as [w1 [e|[d results]]] eqn:Hload;
    [discriminate H|].
  apply load_training_set_spec in Hload.
  destruct Hload as (Hcwd & Hfiles & Hrng & Hsim & Hload).
  destruct (files w !! loaded_file (cwd w) results_dir) as [d'|];
    [|by destruct Hload as [[=] _]].
  destruct Hload as (_ & -> & Hlen & Hlog & _).
  unfold fit_and_query, draw_and_run_validation, history_match, bind,
    do_GaussianProcess, do_learn_hyperparameters, do_sample, do_predict, index,
    do_create_problem, do_run_simulation, do_compute_moment, print, emit, ret, raise in H.
  cbn [rng sim files cwd log set_rng set_sim record_event] in H.
  rewrite Hrng in H.
  destruct (GaussianProcess d' results) as [?|gp] eqn:Hfit; [discriminate H|].
  world_simpl H.
  destruct (learn_hyperparameters gp) as [?|gp'] eqn:Hlearn; [discriminate H|].
  world_simpl H.
  destruct (ed_sample 1000 (rng w)) as [?|[query_points rg1]] eqn:Hq; [discriminate H|].
  world_simpl H.
  destruct (gp_predict gp' query_points) as [?|predictions] eqn:Hp; [discriminate H|].
  world_simpl H.
  destruct (ed_sample 1 rg1) as [?|[known_input rg2]] eqn:Hk; [discriminate H|].
  world_simpl H.
  destruct (known_input !! 0%nat) as [p|] eqn:Hp0; [|discriminate H].
  world_simpl H. rewrite Hsim in H.
  destruct (create_problem p "known_value" results_dir (sim w)) as [s1 [?|]];
    [discriminate H|].
  world_simpl H.
  destruct (run_simulation "known_value" 4 mpi_exec fdfault_exec results_dir s1)
    as [s2 [?|]]; [discriminate H|].
  world_simpl H.
  destruct (compute_moment "known_value" results_dir s2) as [?|known_value] eqn:Hkv;
    [discriminate H|].
  rewrite Hp0 in H. world_simpl H.
  destruct (take_rows query_points _) as [rows|] eqn:Hrows; [|discriminate H].
  injection H as <-. cbn [rng sim files cwd log set_rng set_sim record_event].
  exists d', results, gp, gp', query_points, rg1, predictions, known_input, rg2, p,
    known_value, rows.
  do 11 (split; [first [assumption | reflexivity]|]).
  rewrite Hlog. cbn [case_events]. rewrite <- !app_assoc. reflexivity.
Qed.

(** ** The validation point *)

Lemma draw_and_run_validation_spec `{C : Collaborators}
    mpi_exec fdfault_exec results_dir (w w' : World) r :
  draw_and_run_validation mpi_exec fdfault_exec results_dir w = (w', r) ->
  cwd w' = cwd w /\ files w' = files w /\
  exists evs,
    log w' = log w ++ ev_sample 1 :: evs /\
    match ed_sample 1 (rng w) with
    | inl e => r = inl e /\ evs = []
    | inr (known_input, rg) =>
        match known_input !! 0%nat with
        | None => r = inl IndexError /\ evs = []
        | Some p =>
            evs `prefix_of`
              case_events p "known_value" mpi_exec fdfault_exec results_dir
              ++ [ev_compute_moment "known_value" results_dir] /\
            match r with
            | inr (drawn, known_value) =>
                drawn = known_input /\
                compute_moment "known_value" results_dir (sim w') = inr known_value /\
                evs = case_events p "known_value" mpi_exec fdfault_exec results_dir
                      ++ [ev_compute_moment "known_value" results_dir]
            | inl _ => evs <> []
            end
        end
    end.
Proof.
  unfold draw_and_run_validation, bind, do_sample, index, do_create_problem,
    do_run_simulation, do_compute_moment, ret, raise.
  intros H. world_simpl H.
  destruct (ed_sample 1 (rng w)) as [e|[known_input rg]].
  { injection H as <- <-. do 2 (split; [reflexivity|]). by exists []. }
  destruct (known_input !! 0%nat) as [p|].
  2:{ injection H as <- <-. do 2 (split; [reflexivity|]). by exists []. }
  world_simpl H.
  destruct (create_problem p "known_value" results_dir (sim w)) as [s1 [e|]].
  { injection H as <- <-. do 2 (split; [reflexivity|]).
    exists [ev_create_problem p "known_value" results_dir].
    cbn. rewrite <- !app_assoc. split; [reflexivity|].
    split; [by apply prefix_cons, prefix_nil | done]. }
  world_simpl H.
  destruct (run_simulation "known_value" 4 mpi_exec fdfault_exec results_dir s1)
    as [s2 [e|]].
  { injection H as <- <-. do 2 (split; [reflexivity|]).
    exists (case_events p "known_value" mpi_exec fdfault_exec results_dir).
    cbn. rewrite <- !app_assoc. split; [reflexivity|].
    split; [by do 2 apply prefix_cons; apply prefix_nil | done]. }
  world_simpl H.
  destruct (compute_moment "known_value" results_dir s2) as [e|known_value] eqn:Hkv;
    injection H as <- <-; do 2 (split; [reflexivity|]);
    exists (case_events p "known_value" mpi_exec fdfault_exec results_dir
              ++ [ev_compute_moment "known_value" results_dir]);
    cbn; rewrite <- !app_assoc; (split; [reflexivity|]); done.
Qed.

Lemma filter_no_dispatch (evs : list event) :
  Forall (fun e => is_dispatch e = false) evs ->
  filter (fun e => is_dispatch e = true) evs = [].
Proof.
  induction 1 as [|e evs He _ IH]; [reflexivity|].
  rewrite filter_cons_False by congruence. exact IH.
Qed.

(** C8: the validation stage makes one call [ed.sample(1)] on the generator
    as it stands, takes the first row of that draw (the training design is
    no argument of it), constructs and executes it with the two calls a
    batch case gets, under the name [known_value], and reads its moment; that
    name is no [simulation_i]; and in a completed analysis run the only case
    constructed or executed is this one. *)
Theorem C8_validation_point `{C : Collaborators}
    (mpi_exec fdfault_exec results_dir : string) :
  (forall (w w' : World) drawn known_value,
      draw_and_run_validation mpi_exec fdfault_exec results_dir w
      = (w', inr (drawn, known_value)) ->
      exists p rg,
        ed_sample 1 (rng w) = inr (drawn, rg) /\
        drawn !! 0%nat = Some p /\
        compute_moment "known_value" results_dir (sim w') = inr known_value /\
        log w' = log w ++ ev_sample 1
                       :: case_events p "known_value" mpi_exec fdfault_exec results_dir
                       ++ [ev_compute_moment "known_value" results_dir]) /\
  (forall (p : Point) counter (w w' : World) c,
      simulation_loop [p] counter mpi_exec fdfault_exec results_dir w = (w', inr c) ->
      log w' = log w ++ case_events p (format_simulation counter)
                          mpi_exec fdfault_exec results_dir) /\
  (forall i : Z, "known_value" <> format_simulation i) /\
  (forall (w w' : World),
      run_mogp_analysis mpi_exec fdfault_exec results_dir w = (w', inr tt) ->
      exists p,
        filter (fun e => is_dispatch e = true) (new_events w w')
        = case_events p "known_value" mpi_exec fdfault_exec results_dir).
Proof.
  split; [|split; [|split]].
  - intros w w' drawn known_value H.
    apply draw_and_run_validation_spec in H.
    destruct H as (_ & _ & evs & Hlog & H).
    destruct (ed_sample 1 (rng w)) as [e|[known_input rg]]; [by destruct H as [[=] _]|].
    destruct (known_input !! 0%nat) as [p|] eqn:Hp; [|by destruct H as [[=] _]].
    destruct H as (_ & -> & Hkv & ->). by exists p, rg.
  - intros p counter w w' c H. apply simulation_loop_spec in H.
    destruct H as (_ & _ & _ & evs & Hlog & _ & _ & ->).
    rewrite Hlog, batch_events_cons. unfold batch_events. cbn. reflexivity.
  - apply known_value_reserved.
  - intros w w' H. apply run_mogp_analysis_trace in H.
    destruct H as (d & results & gp & gp' & q & rg1 & preds & ki & rg2 & p & kv & rows
                   & _ & _ & _ & _ & _ & _ & _ & _ & _ & _ & _ & Hlog).
    exists p. unfold new_events. rewrite Hlog, drop_app_length.
    rewrite filter_cons_False by (cbn; discriminate).
    rewrite filter_app, filter_no_dispatch; [reflexivity|].
    apply Forall_forall. intros e He. apply list_elem_of_fmap in He.
    by destruct He as (n & -> & _).
Qed.

Lemma C8_witness :
  let C := Stub.collaborators false 1 in
  let w0 := Stub.world0 false 1 [] in
  let w' := fst (draw_and_run_validation "mpirun" "fdfault" "results" w0) in
  log w'
  = [ev_sample 1;
     ev_create_problem (Stub.point_of 0) "known_value" "results";
     ev_run_simulation "known_value" 4 "mpirun" "fdfault" "results";
     ev_compute_moment "known_value" "results"].
Proof.
  intros C w0 w'.
  destruct (C8_validation_point (C := C) "mpirun" "fdfault" "results") as [H _].
  destruct (H w0 w' [Stub.point_of 0] (Stub.moment (Stub.point_of 0)))
    as (p & rg & Hdraw & Hp & _ & Hlog).
  - vm_compute. reflexivity.
  - injection Hp as <-. exact Hlog.
Defined.

(** ** Implausibility *)

Lemma leb_refl_not_nan (t : float) :
  PrimFloat.is_nan t = false -> PrimFloat.leb t t = true.
Proof.
  unfold PrimFloat.is_nan. rewrite FloatAxioms.eqb_spec, leb_spec.
  unfold SFeqb, SFleb.
  by destruct (SFcompare (Prim2SF t) (Prim2SF t)) as [[]|].
Qed.






Lemma where_le_spec (I : list float) (t : float) : forall (start i : nat),
  i ∈ where_le start I t <->
  exists (j : nat) x, i = (start + j)%nat /\ I !! j = Some x /\ PrimFloat.leb x t = true.
Proof.
  induction I as [|x I IH]; intros start i; cbn [where_le].
  - split; [by intros ?%elem_of_nil | by intros (j & y & _ & ? & _)].
  - assert (Hrest : i ∈ where_le (S start) I t <->
              exists (j : nat) y, i = (start + S j)%nat /\ I !! j = Some y
                                  /\ PrimFloat.leb y t = true).
    { rewrite IH. split; intros (j & y & -> & ? & ?); exists j, y;
        (split; [lia | done]). }
    destruct (PrimFloat.leb x t) eqn:Hx.
    + rewrite elem_of_cons, Hrest. split.
      * intros [-> | (j & y & -> & ? & ?)].
        -- exists 0%nat, x. split; [lia | done].
        -- by exists (S j), y.
      * intros ([|j] & y & -> & Hj & Hy).
        -- left. lia.
        -- right. by exists j, y.
    + rewrite Hrest. split.
      * intros (j & y & -> & ? & ?). by exists (S j), y.
      * intros ([|j] & y & -> & Hj & Hy).
        -- injection Hj as <-. congruence.
        -- by exists j, y.
Qed.

Lemma take_rows_spec (arr : Design) (idx : list nat) :
  (forall i : nat, i ∈ idx -> (i < length arr)%nat) ->
  exists rows,
    take_rows arr idx = Some rows /\
    forall row : Point, row ∈ rows <-> exists i : nat, i ∈ idx /\ arr !! i = Some row.
Proof.
  induction idx as [|i idx IH]; intros Hin; cbn [take_rows].
  - exists []. split; [reflexivity|]. intros row. split.
    + by intros ?%elem_of_nil.
    + intros (i & ?%elem_of_nil & _). done.
  - destruct IH as (rows & -> & Hrows).
    { intros j Hj. apply Hin. by right. }
    destruct (lookup_lt_is_Some_2 arr i) as [row Hrow]; [apply Hin; by left|].
    rewrite Hrow. exists (row :: rows). split; [reflexivity|].
    intros r. rewrite elem_of_cons, Hrows. split.
    + intros [-> | (j & Hj & Hr)].
      * exists i. split; [by left | done].
      * exists j. split; [by right | done].
    + intros (j & [-> | Hj]%elem_of_cons & Hr).
      * left. congruence.
      * right. by exists j.
Qed.

(** C4: the implausibility of query point [i] is
    [|observation - mean_i| / sqrt(variance_i)], one score per prediction;
    NROY is exactly the set of positions whose score is [<=] the threshold,
    a score equal to the threshold included; and the rows [run_mogp_analysis]
    prints as NROY are the query points whose score is [<= 2.]. *)
Theorem C4_implausibility_and_NROY `{C : Collaborators}
    (obs : Obs) (query_points : Design) (predictions : list Prediction)
    (threshold : float) :
  let hm := mkHistoryMatching obs query_points predictions threshold in
  length (get_implausibility hm) = length predictions /\
  (forall (i : nat) p, predictions !! i = Some p ->
     get_implausibility hm !! i
     = Some (PrimFloat.abs (obs - mean p) / PrimFloat.sqrt (unc p))%float) /\
  (forall i : nat,
     i ∈ get_NROY hm <->
     exists x, get_implausibility hm !! i = Some x /\ PrimFloat.leb x threshold = true) /\
  (forall i : nat,
     get_implausibility hm !! i = Some threshold ->
     PrimFloat.is_nan threshold = false ->
     i ∈ get_NROY hm) /\
  (forall (known_input : Design) (point : Point) (w : World),
     known_input !! 0%nat = Some point ->
     (length predictions <= length query_points)%nat ->
     exists rows,
       history_match known_input obs query_points predictions w
       = (record_event (ev_print_rows rows)
            (record_event (ev_print "NROY:")
               (record_event (ev_print_point "Actual point:" point) w)), inr tt) /\
       forall row : Point,
         row ∈ rows <->
         exists (i : nat) p,
           query_points !! i = Some row /\ predictions !! i = Some p /\
           PrimFloat.leb (implausibility_at obs p) 2 = true).
Proof.
  intros hm.
  assert (Hnroy : forall (t : float) (i : nat),
            i ∈ where_le 0 (map (implausibility_at obs) predictions) t <->
            exists x, map (implausibility_at obs) predictions !! i = Some x
                      /\ PrimFloat.leb x t = true).
  { intros t i. rewrite where_le_spec. split.
    - intros (j & x & -> & ? & ?). by exists x.
    - intros (x & ? & ?). by exists i, x. }
  split; [apply length_map|]. split; [|split; [|split]].
  - intros i p Hp. unfold get_implausibility. cbn [hm hm_obs hm_expectations].
    change (map ?f ?l) with (f <$> l). by rewrite list_lookup_fmap, Hp.
  - intros i. apply Hnroy.
  - intros i Hi Ht. apply Hnroy. exists threshold. split; [exact Hi|].
    by apply leb_refl_not_nan.
  - intros known_input point w Hpoint Hlen.
    destruct (take_rows_spec query_points
                (get_NROY (mkHistoryMatching obs query_points predictions 2)))
      as (rows & Hrows & Hmem).
    { intros i Hi. apply Hnroy in Hi. destruct Hi as (x & Hx & _).
      apply lookup_lt_Some in Hx. rewrite length_map in Hx. lia. }
    exists rows. split.
    + unfold history_match, bind, index. rewrite Hpoint. unfold ret, print, emit.
      by rewrite Hrows.
    + intros row. rewrite Hmem. split.
      * intros (i & Hi & Hrow). apply Hnroy in Hi. destruct Hi as (x & Hx & Hle).
        change (map ?f ?l) with (f <$> l) in Hx. rewrite list_lookup_fmap in Hx.
        destruct (predictions !! i) as [p|] eqn:Hp; [|done].
        injection Hx as <-. by exists i, p.
      * intros (i & p & Hrow & Hp & Hle). exists i. split; [|done].
        apply Hnroy. exists (implausibility_at obs p). split; [|done].
        change (map ?f ?l) with (f <$> l). by rewrite list_lookup_fmap, Hp.
Qed.

Lemma C4_witness :
  let C := Stub.collaborators false 1 in
  let hm := mkHistoryMatching 10 [[1]; [2]; [3]]%float
              [mkPrediction 10 1; mkPrediction 12 1; mkPrediction 50 1] 2 in
  get_implausibility hm = [0; 2; 40]%float /\
  get_NROY hm = [0; 1]%nat /\
  1%nat ∈ get_NROY hm.
Proof.
  intros C hm. split; [reflexivity|]. split; [reflexivity|].
  destruct (C4_implausibility_and_NROY (C := C) 10 [[1]; [2]; [3]]%float
              [mkPrediction 10 1; mkPrediction 12 1; mkPrediction 50 1] 2)
    as (_ & _ & _ & H & _).
  apply H; reflexivity.
Defined.

(** ** Zero variance *)






(** ** The whole pipeline on the reference collaborators *)

(** A batch of three cases run in the working directory, then the analysis
    on it: both complete, and the analysis asks for the three moments in row
    order before it fits the emulator. *)
Example pipeline_in_cwd_completes :
  let C := Stub.collaborators true 1 in
  let B := Stub.builtins in
  let w0 := Stub.world0 true 1 [] in
  let w1 := fst (main ["run.py"; "run_simulation"; "mpirun"; "fdfault"; "."; "3"] w0) in
  let w2 := fst (main ["run.py"; "analysis"; "mpirun"; "fdfault"; "."] w1) in
  snd (main ["run.py"; "run_simulation"; "mpirun"; "fdfault"; "."; "3"] w0) = inr tt /\
  snd (main ["run.py"; "analysis"; "mpirun"; "fdfault"; "."] w1) = inr tt /\
  take 5 (new_events w1 w2)
  = [ev_load "./input_points.npy";
     ev_compute_moment "simulation_1" "."; ev_compute_moment "simulation_2" ".";
     ev_compute_moment "simulation_3" ".";
     ev_fit (map Stub.point_of [157374; 157375; 157376])
       (map (fun k => Stub.moment (Stub.point_of k)) [157374; 157375; 157376])].
Proof. vm_compute. repeat split. Qed.

(** * Further properties of the driver *)

Section Frame.

Context `{C : Collaborators}.
Variable P : event -> Prop.

Lemma keeps_ret {A} (a : A) : keeps_files P (ret a).
Proof. intros w w' r [= <- <-]. do 2 (split; [done|]). exists []. by rewrite app_nil_r. Qed.

Lemma keeps_raise {A} (e : exn) : keeps_files P (raise (A := A) e).
Proof. intros w w' r [= <- <-]. do 2 (split; [done|]). exists []. by rewrite app_nil_r. Qed.

Lemma keeps_bind {A B} (c : M World A) (k : A -> M World B) :
  keeps_files P c -> (forall a, keeps_files P (k a)) -> keeps_files P (bind c k).
Proof.
  intros Hc Hk w w' r H. unfold bind in H.
  destruct (c w) as [w1 [e|a]] eqn:Hcw.
  - injection H as <- <-. by apply Hc in Hcw.
  - apply Hc in Hcw. apply Hk in H.
    destruct Hcw as (Hcwd1 & Hf1 & evs1 & Hl1 & HP1).
    destruct H as (Hcwd2 & Hf2 & evs2 & Hl2 & HP2).
    split; [congruence|]. split; [congruence|].
    exists (evs1 ++ evs2). split; [by rewrite Hl2, Hl1, app_assoc|].
    by apply Forall_app.
Qed.

Lemma keeps_one {A} (e : event) (c : M World A) :
  P e ->
  (forall w, cwd (fst (c w)) = cwd w /\ files (fst (c w)) = files w /\
             log (fst (c w)) = log w ++ [e]) ->
  keeps_files P c.
Proof.
  intros HP Hc w w' r H. destruct (Hc w) as (H1 & H2 & H3). rewrite H in *.
  do 2 (split; [done|]). exists [e]. split; [done|]. by constructor.
Qed.

Lemma keeps_do_sample n : P (ev_sample n) -> keeps_files P (do_sample n).
Proof.
  intros HP. apply (keeps_one (ev_sample n)); [done|]. intros w. unfold do_sample.
  by destruct (ed_sample n (rng w)) as [e|[d r]].
Qed.

Lemma keeps_do_create_problem p name dir :
  P (ev_create_problem p name dir) -> keeps_files P (do_create_problem p name dir).
Proof.
  intros HP. apply (keeps_one (ev_create_problem p name dir)); [done|]. intros w.
  unfold do_create_problem. by destruct (create_problem p name dir (sim w)) as [s [e|]].
Qed.

Lemma keeps_do_run_simulation name n mpi fd dir :
  P (ev_run_simulation name n mpi fd dir) ->
  keeps_files P (do_run_simulation name n mpi fd dir).
Proof.
  intros HP. apply (keeps_one (ev_run_simulation name n mpi fd dir)); [done|]. intros w.
  unfold do_run_simulation.
  by destruct (run_simulation name n mpi fd dir (sim w)) as [s [e|]].
Qed.

Lemma keeps_do_compute_moment name dir :
  P (ev_compute_moment name dir) -> keeps_files P (do_compute_moment name dir).
Proof. intros HP. by apply (keeps_one (ev_compute_moment name dir)). Qed.

Lemma keeps_np_load file : P (ev_load file) -> keeps_files P (np_load file).
Proof. intros HP. by apply (keeps_one (ev_load file)). Qed.

Lemma keeps_emit e : P e -> keeps_files P (emit e).
Proof. intros HP. by apply (keeps_one e). Qed.

Lemma keeps_index {A} (l : list A) i : keeps_files P (index l i).
Proof. unfold index. destruct (l !! i); [apply keeps_ret | apply keeps_raise]. Qed.

End Frame.

Section AnalysisFrame.

Context `{C : Collaborators}.

Lemma keeps_analysis_loop d : forall counter acc dir,
  keeps_files read_only_call (analysis_loop d counter acc dir).
Proof.
  induction d as [|p d IH]; intros counter acc dir; cbn [analysis_loop].
  - apply keeps_ret.
  - apply keeps_bind; [by apply keeps_do_compute_moment|]. intros o. apply IH.
Qed.

End AnalysisFrame.

Lemma run_mogp_analysis_keeps_files `{C : Collaborators}
    (mpi_exec fdfault_exec results_dir : string) :
  keeps_files read_only_call (run_mogp_analysis mpi_exec fdfault_exec results_dir).
Proof.
  unfold run_mogp_analysis.
  apply keeps_bind.
  { unfold load_training_set. apply keeps_bind; [by apply keeps_np_load|].
    intros d. apply keeps_bind; [apply keeps_analysis_loop|].
    intros r. apply keeps_ret. }
  intros [d results]. apply keeps_bind.
  { unfold fit_and_query. apply keeps_bind; [by apply (keeps_one _ (ev_fit d results))|].
    intros gp. apply keeps_bind; [by apply (keeps_one _ ev_learn_hyperparameters)|].
    intros gp'. apply keeps_bind; [by apply keeps_do_sample|].
    intros q. apply keeps_bind; [by apply (keeps_one _ (ev_predict q))|].
    intros preds. apply keeps_ret. }
  intros [q preds]. apply keeps_bind.
  { unfold draw_and_run_validation. apply keeps_bind; [by apply keeps_do_sample|].
    intros ki. apply keeps_bind; [apply keeps_index|].
    intros p. apply keeps_bind; [by apply keeps_do_create_problem|].
    intros _. apply keeps_bind; [by apply keeps_do_run_simulation|].
    intros _. apply keeps_bind; [by apply keeps_do_compute_moment|].
    intros kv. apply keeps_ret. }
  intros [ki kv]. unfold history_match.
  apply keeps_bind; [apply keeps_index|].
  intros p. apply keeps_bind; [by apply keeps_emit|].
  intros _. apply keeps_bind; [by apply keeps_emit|].
  intros _. destruct (take_rows _ _); [by apply keeps_emit | apply keeps_raise].
Qed.

(** Whatever its outcome, [run_mogp_analysis] makes no [np.save] and no
    [np.random.seed] call: the script writes no array during the analysis
    and draws from the random state as it finds it. *)
Theorem analysis_never_saves_or_seeds `{C : Collaborators}
    (mpi_exec fdfault_exec results_dir : string) (w w' : World) r :
  run_mogp_analysis mpi_exec fdfault_exec results_dir w = (w', r) ->
  exists evs,
    log w' = log w ++ evs /\
    Forall (fun e => is_save e = false /\ is_seed e = false) evs.
Proof.
  intros H. apply run_mogp_analysis_keeps_files in H. tauto.
Qed.

Lemma analysis_never_saves_or_seeds_witness :
  let C := Faulty.collaborators Faulty.prediction_fails in
  let w0 := Faulty.world_after_batch Faulty.prediction_fails [Stub.point_of 1] in
  let w' := fst (run_mogp_analysis "mpirun" "fdfault" "." w0) in
  exists evs,
    log w' = log w0 ++ evs /\
    Forall (fun e => is_save e = false /\ is_seed e = false) evs.
Proof.
  intros C w0 w'.
  apply (analysis_never_saves_or_seeds (C := C) "mpirun" "fdfault" "." w0 w'
           (inl (Raised "PredictionFailure"))).
  vm_compute. reflexivity.
Defined.

(** With too few command-line arguments the script ends with [IndexError]
    before it does anything: no mode at all, fewer than five arguments after
    the script name in [run_simulation] mode (a missing sample count is not
    caught by [except ValueError]), fewer than four in [analysis] mode. *)
Theorem main_too_few_arguments `{C : Collaborators} `{B : Builtins} (argv : list string) (w : World) :
  (length argv < 2)%nat \/
  (argv !! 1%nat = Some "run_simulation" /\ (length argv < 6)%nat) \/
  (argv !! 1%nat = Some "analysis" /\ (length argv < 5)%nat) ->
  main argv w = (w, inl IndexError).
Proof.
  intros [Hlen | [[Hmood Hlen] | [Hmood Hlen]]].
  - destruct argv as [|a0 [|a1 rest]]; [done..|simpl in Hlen; lia].
  - destruct argv as [|a0 [|a1 rest]]; [done..|]. injection Hmood as ->.
    unfold main, argv_at, index, bind, ret, raise. cbn [lookup list_lookup].
    cbn [String.eqb Ascii.eqb Bool.eqb].
    destruct rest as [|a2 [|a3 [|a4 [|a5 rest]]]]; try done.
    simpl in Hlen. lia.
  - destruct argv as [|a0 [|a1 rest]]; [done..|]. injection Hmood as ->.
    unfold main, argv_at, index, bind, ret, raise. cbn [lookup list_lookup].
    cbn [String.eqb Ascii.eqb Bool.eqb].
    destruct rest as [|a2 [|a3 [|a4 rest]]]; try done.
    simpl in Hlen. lia.
Qed.

Lemma main_too_few_arguments_witness :
  let C := Stub.collaborators true 1 in
  let B := Stub.builtins in
  let w0 := Stub.world0 true 1 [] in
  main ["run.py"; "run_simulation"; "mpirun"; "fdfault"; "results"] w0
  = (w0, inl IndexError).
Proof.
  intros C B w0.
  apply (main_too_few_arguments (C := C) (B := B)
           ["run.py"; "run_simulation"; "mpirun"; "fdfault"; "results"] w0).
  right. left. split; [reflexivity | simpl; lia].
Defined.



(** Empty design: when the sampler returns no row, the batch driver runs no
    case and saves an empty design; on an empty design the aggregation asks
    for no moment and returns an empty training set. *)
Theorem empty_design_edge `{C : Collaborators}
    sample_points (mpi_exec fdfault_exec results_dir : string) (w : World) :
  (forall rg,
     ed_sample sample_points (np_random_seed 157374) = inr ([], rg) ->
     run_mogp_simulation sample_points mpi_exec fdfault_exec results_dir w
     = (set_files (<[saved_file (cwd w) := []]> (files w))
          (record_event (ev_save "input_points.npy" [])
             (set_rng rg (record_event (ev_sample sample_points)
                (set_rng (np_random_seed 157374) (record_event (ev_seed 157374) w))))),
        inr tt)) /\
  (files w !! loaded_file (cwd w) results_dir = Some [] ->
   load_training_set results_dir w
   = (record_event (ev_load (Py.join results_dir "input_points.npy")) w, inr ([], []))).
Proof.
  split.
  - intros rg H. unfold run_mogp_simulation, bind, do_seed, do_sample.
    cbn [rng set_rng record_event]. rewrite H. reflexivity.
  - intros H. unfold load_training_set, bind, np_load. unfold loaded_file in H.
    rewrite H. reflexivity.
Qed.

Lemma empty_design_edge_witness :
  let C := Stub.collaborators false 1 in
  let w0 := Stub.world0 false 1 [] in
  let w1 := fst (run_mogp_simulation 0 "mpirun" "fdfault" "." w0) in
  snd (run_mogp_simulation 0 "mpirun" "fdfault" "." w0) = inr tt /\
  log w1 = [ev_seed 157374; ev_sample 0; ev_save "input_points.npy" []] /\
  snd (load_training_set "." w1) = inr ([], []).
Proof.
  intros C w0 w1.
  destruct (empty_design_edge (C := C) 0 "mpirun" "fdfault" "." w0) as [Hbatch _].
  destruct (empty_design_edge (C := C) 0 "mpirun" "fdfault" "." w1) as [_ Hload].
  specialize (Hbatch 157374 eq_refl). specialize (Hload eq_refl).
  split; [exact (f_equal snd Hbatch)|].
  split; [exact (f_equal (fun x => log (fst x)) Hbatch)|].
  exact (f_equal snd Hload).
Defined.

(** Round trip in place: an output directory given as the empty string,
    [.] or [./] names the working directory, and whenever an output
    directory without [..] resolves to the working directory the load of the
    analysis returns, after a completed batch, exactly the design that batch
    drew. *)
Theorem design_round_trip_when_run_in_place `{C : Collaborators}
    sample_points mpi_exec fdfault_exec results_dir (w w' : World) :
  (forall cwd,
     loaded_file cwd "" = saved_file cwd /\
     loaded_file cwd "." = saved_file cwd /\
     loaded_file cwd "./" = saved_file cwd) /\
  (dotdot_free results_dir = true ->
   loaded_file (cwd w) results_dir = saved_file (cwd w) ->
   run_mogp_simulation sample_points mpi_exec fdfault_exec results_dir w = (w', inr tt) ->
   exists d rg,
     ed_sample sample_points (np_random_seed 157374) = inr (d, rg) /\
     np_load (Py.join results_dir "input_points.npy") w'
     = (record_event (ev_load (Py.join results_dir "input_points.npy")) w', inr d)).
Proof.
  split.
  - intros cwd. by repeat split.
  - intros _. apply design_round_trip_in_cwd.
Qed.

Lemma design_round_trip_when_run_in_place_witness :
  let C := Stub.collaborators true 1 in
  let w0 := Stub.world0 true 1 [] in
  let w' := fst (run_mogp_simulation 2 "mpirun" "fdfault" "." w0) in
  np_load "./input_points.npy" w'
  = (record_event (ev_load "./input_points.npy") w',
     inr [Stub.point_of 157374; Stub.point_of 157375]).
Proof.
  intros C w0 w'.
  destruct (design_round_trip_when_run_in_place (C := C) 2 "mpirun" "fdfault" "." w0 w')
    as [_ H].
  destruct H as (d & rg & Hd & Hload).
  - reflexivity.
  - reflexivity.
  - vm_compute. reflexivity.
  - injection Hd as <- _. exact Hload.
Defined.

Section FailFast.

Context `{C : Collaborators}.
Variables mpi_exec fdfault_exec results_dir : string.

Lemma batch_events_snoc_take (d : Design) : forall first (k : nat) (p : Point),
  d !! k = Some p ->
  batch_events first (take (S k) d) mpi_exec fdfault_exec results_dir
  = batch_events first (take k d) mpi_exec fdfault_exec results_dir
    ++ case_events p (format_simulation (Z.of_nat k + first))
         mpi_exec fdfault_exec results_dir.
Proof.
  induction d as [|q d IH]; intros first k p Hk; [done|].
  destruct k as [|k].
  - injection Hk as ->. cbn [take]. rewrite batch_events_cons. unfold batch_events.
    cbn. reflexivity.
  - cbn [take]. rewrite !batch_events_cons, (IH (first + 1) k p Hk), <- app_assoc.
    by replace (Z.of_nat (S k) + first) with (Z.of_nat k + (first + 1)) by lia.
Qed.

(** The loop stops at the first call that raises: the cases before it have
    had their two calls, the failing case its construction and, if that went
    through, its execution; nothing follows. *)
Lemma simulation_loop_fail_fast (d : Design) : forall counter w w' e,
  simulation_loop d counter mpi_exec fdfault_exec results_dir w = (w', inl e) ->
  exists (k : nat) (p : Point) s s',
    d !! k = Some p /\
    ((create_problem p (format_simulation (Z.of_nat k + counter)) results_dir s
      = (s', Some e) /\
      log w' = log w
               ++ batch_events counter (take k d) mpi_exec fdfault_exec results_dir
               ++ [ev_create_problem p (format_simulation (Z.of_nat k + counter))
                     results_dir]) \/
     (run_simulation (format_simulation (Z.of_nat k + counter)) 4 mpi_exec fdfault_exec
        results_dir s = (s', Some e) /\
      log w' = log w
               ++ batch_events counter (take (S k) d) mpi_exec fdfault_exec
                    results_dir)) /\
    sim w' = s'.
Proof.
  induction d as [|p d IH]; intros counter w w' e H; [discriminate H|].
  cbn [simulation_loop] in H. unfold bind, do_create_problem, do_run_simulation in H.
  destruct (create_problem p (format_simulation counter) results_dir (sim w))
    as [s1 [e1|]] eqn:Hc.
  { injection H as <- <-. exists 0%nat, p, (sim w), s1. split; [done|]. split; [|done].
    left. split; [exact Hc|]. reflexivity. }
  cbn [sim set_sim record_event] in H.
  destruct (run_simulation (format_simulation counter) 4 mpi_exec fdfault_exec
              results_dir s1) as [s2 [e2|]] eqn:Hr.
  { injection H as <- <-. exists 0%nat, p, s1, s2. split; [done|]. split; [|done].
    right. split; [exact Hr|]. cbn [take]. rewrite batch_events_cons.
    unfold batch_events. cbn. by rewrite <- app_assoc. }
  apply IH in H. cbn [log sim set_sim record_event] in H.
  destruct H as (k & q & s & s' & Hk & Hcase & Hsim).
  exists (S k), q, s, s'. split; [exact Hk|]. split; [|exact Hsim].
  replace (Z.of_nat (S k) + counter) with (Z.of_nat k + (counter + 1)) by lia.
  destruct Hcase as [[Hraise Hlog]|[Hraise Hlog]]; [left|right];
    (split; [exact Hraise|]); rewrite Hlog; cbn [take]; rewrite batch_events_cons;
    cbn [case_events]; by rewrite <- !app_assoc.
Qed.

End FailFast.

(** The batch is fail-fast: when it ends with an exception, that exception
    was raised by the construction or by the execution of one case; the
    cases before it have each been constructed and executed, in order, and
    no call follows the failing one. *)
Theorem batch_is_fail_fast `{C : Collaborators}
    sample_points mpi_exec fdfault_exec results_dir (w w' : World) (d : Design) rg e :
  ed_sample sample_points (np_random_seed 157374) = inr (d, rg) ->
  run_mogp_simulation sample_points mpi_exec fdfault_exec results_dir w = (w', inl e) ->
  exists (k : nat) (p : Point) s,
    d !! k = Some p /\
    ((create_problem p (format_simulation (Z.of_nat k + 1)) results_dir s
      = (sim w', Some e) /\
      log w' = log w ++ [ev_seed 157374; ev_sample sample_points]
               ++ batch_events 1 (take k d) mpi_exec fdfault_exec results_dir
               ++ [ev_create_problem p (format_simulation (Z.of_nat k + 1)) results_dir])
     \/
     (run_simulation (format_simulation (Z.of_nat k + 1)) 4 mpi_exec fdfault_exec
        results_dir s = (sim w', Some e) /\
      log w' = log w ++ [ev_seed 157374; ev_sample sample_points]
               ++ batch_events 1 (take (S k) d) mpi_exec fdfault_exec results_dir)).
Proof.
  intros Hd H. unfold run_mogp_simulation, bind, do_seed, do_sample in H.
  cbn [rng set_rng record_event] in H. rewrite Hd in H.
  destruct (simulation_loop d 1 mpi_exec fdfault_exec results_dir _) as [w1 [e1|c]]
    eqn:Hloop; [|discriminate H].
  injection H as <- <-.
  apply simulation_loop_fail_fast in Hloop. cbn [log set_rng record_event] in Hloop.
  destruct Hloop as (k & p & s & s' & Hk & Hcase & <-).
  exists k, p, s. split; [exact Hk|].
  destruct Hcase as [[Hraise Hlog]|[Hraise Hlog]]; [left|right];
    (split; [exact Hraise|]); rewrite Hlog; by rewrite <- !app_assoc.
Qed.

Lemma batch_is_fail_fast_witness :
  let C := Stub.collaborators false 1 in
  let w0 := Stub.world0 false 1 ["simulation_2"] in
  let w' := fst (run_mogp_simulation 3 "mpirun" "fdfault" "results" w0) in
  let d := [Stub.point_of 157374; Stub.point_of 157375; Stub.point_of 157376] in
  exists (k : nat) (p : Point) s,
    d !! k = Some p /\
    ((create_problem p (format_simulation (Z.of_nat k + 1)) "results" s
      = (sim w', Some (Raised "SimulationFailure")) /\
      log w' = log w0 ++ [ev_seed 157374; ev_sample 3]
               ++ batch_events 1 (take k d) "mpirun" "fdfault" "results"
               ++ [ev_create_problem p (format_simulation (Z.of_nat k + 1)) "results"])
     \/
     (run_simulation (format_simulation (Z.of_nat k + 1)) 4 "mpirun" "fdfault"
        "results" s = (sim w', Some (Raised "SimulationFailure")) /\
      log w' = log w0 ++ [ev_seed 157374; ev_sample 3]
               ++ batch_events 1 (take (S k) d) "mpirun" "fdfault" "results")).
Proof.
  intros C w0 w' d.
  apply (batch_is_fail_fast (C := C) 3 "mpirun" "fdfault" "results" w0 w' d 157377).
  - reflexivity.
  - vm_compute. reflexivity.
Defined.

Section Contract.

Context `{C : Collaborators}.
Variable moment : Point -> Obs.
Variable complete : sim_state -> string -> string -> Point -> Prop.
Hypothesis contract : simulator_contract moment complete.
Variables mpi_exec fdfault_exec results_dir : string.

Lemma simulation_loop_completes (d : Design) : forall counter (w w' : World) c,
  simulation_loop d counter mpi_exec fdfault_exec results_dir w = (w', inr c) ->
  (forall (k : nat) (p : Point), d !! k = Some p ->
     complete (sim w') results_dir (format_simulation (Z.of_nat k + counter)) p) /\
  (forall name p,
     complete (sim w) results_dir name p ->
     (forall k : nat, name <> format_simulation (Z.of_nat k + counter)) ->
     complete (sim w') results_dir name p).
Proof.
  induction d as [|q d IH]; intros counter w w' c H.
  - injection H as <- <-. split; [done|]. by intros name p Hp _.
  - cbn [simulation_loop] in H. unfold bind, do_create_problem, do_run_simulation in H.
    destruct (create_problem q (format_simulation counter) results_dir (sim w))
      as [s1 [e1|]] eqn:Hc; [discriminate H|].
    cbn [sim set_sim record_event] in H.
    destruct (run_simulation (format_simulation counter) 4 mpi_exec fdfault_exec
                results_dir s1) as [s2 [e2|]] eqn:Hr; [discriminate H|].
    apply IH in H. cbn [sim set_sim record_event] in H. destruct H as [Hin Hout].
    split.
    + intros [|k] p Hk.
      * injection Hk as ->. apply Hout.
        -- change (Z.of_nat 0 + counter) with counter.
           by apply (run_completes _ _ contract _ _ _ _ _ _ _ _ _ Hc Hr).
        -- intros k Heq. apply format_simulation_inj in Heq. lia.
      * replace (Z.of_nat (S k) + counter) with (Z.of_nat k + (counter + 1)) by lia.
        by apply Hin.
    + intros name p Hp Hname. apply Hout.
      * assert (Hne : format_simulation counter <> name).
        { intros <-. by apply (Hname 0%nat). }
        eapply (run_keeps _ _ contract); [|exact Hne|exact Hr].
        eapply (create_keeps _ _ contract); [exact Hp|exact Hne|exact Hc].
      * intros k Heq. apply (Hname (S k)). rewrite Heq. f_equal. lia.
Qed.

Lemma aggregation_after_batch (d : Design) (w w1 : World) c :
  simulation_loop d 1 mpi_exec fdfault_exec results_dir w = (w1, inr c) ->
  forall w2 : World, sim w2 = sim w1 ->
    snd (analysis_loop d 1 [] results_dir w2) = inr (map moment d).
Proof.
  intros Hloop w2 Hsim. apply simulation_loop_completes in Hloop.
  destruct Hloop as [Hin _].
  assert (Hmoment : forall (i : nat) (p : Point), d !! i = Some p ->
            compute_moment (format_simulation (Z.of_nat i + 1)) results_dir (sim w2)
            = inr (moment p)).
  { intros i p Hi. rewrite Hsim. apply (extract_complete _ _ contract). by apply Hin. }
  destruct (analysis_loop d 1 [] results_dir w2) as [w3 r] eqn:Hagg. cbn [snd].
  apply analysis_loop_spec in Hagg.
  destruct Hagg as (_ & _ & _ & _ & evs & _ & _ & Hres).
  destruct r as [e|results].
  - destruct Hres as (i & Hi & Hmiss & _).
    destruct (lookup_lt_is_Some_2 d i Hi) as [p Hp].
    rewrite (Hmoment i p Hp) in Hmiss. discriminate.
  - destruct Hres as (_ & os & -> & Hlen & Hall). f_equal. cbn [app].
    apply list_eq. intros i. change (map moment d) with (moment <$> d).
    rewrite list_lookup_fmap.
    destruct (d !! i) as [p|] eqn:Hp.
    + destruct (lookup_lt_is_Some_2 os i) as [o Ho].
      { rewrite Hlen. by apply lookup_lt_Some in Hp. }
      rewrite Ho. simpl. f_equal.
      apply Hall in Ho. rewrite (Hmoment i p Hp) in Ho. congruence.
    + simpl. apply lookup_ge_None. rewrite Hlen. by apply lookup_ge_None.
Qed.

End Contract.

(** With a simulator that keeps its contract and an output directory that
    is the working directory, the training set the analysis loads after a
    completed batch pairs every row of the design with the moment of that
    same row. *)
Theorem training_set_pairs_points_with_their_moments `{C : Collaborators}
    (moment : Point -> Obs)
    (complete : sim_state -> string -> string -> Point -> Prop)
    sample_points mpi_exec fdfault_exec results_dir (w w' : World) :
  simulator_contract moment complete ->
  loaded_file (cwd w) results_dir = saved_file (cwd w) ->
  run_mogp_simulation sample_points mpi_exec fdfault_exec results_dir w = (w', inr tt) ->
  exists d rg,
    ed_sample sample_points (np_random_seed 157374) = inr (d, rg) /\
    snd (load_training_set results_dir w') = inr (d, map moment d).
Proof.
  intros Hcontract Hsame Hrun.
  pose proof (run_mogp_simulation_spec _ _ _ _ _ _ _ Hrun) as [Hcwd Hspec].
  unfold run_mogp_simulation, bind, do_seed, do_sample in Hrun.
  cbn [rng set_rng record_event] in Hrun.
  destruct (ed_sample sample_points (np_random_seed 157374)) as [e|[d rg]];
    [discriminate Hrun|].
  destruct Hspec as (evs & _ & _ & Hfiles & _).
  destruct (simulation_loop d 1 mpi_exec fdfault_exec results_dir _) as [w1 [e|c]]
    eqn:Hloop; [discriminate Hrun|].
  unfold np_save in Hrun. injection Hrun as <-.
  exists d, rg. split; [reflexivity|].
  unfold load_training_set, bind, np_load.
  cbn [cwd files set_files record_event] in *.
  unfold loaded_file in Hsame. rewrite Hcwd, Hsame.
  unfold saved_file. rewrite lookup_insert_eq.
  match goal with |- context [analysis_loop d 1 [] results_dir ?w2] =>
    pose proof (aggregation_after_batch moment complete Hcontract _ _ _ d _ _ _ Hloop
                  w2 eq_refl) as Hagg;
    destruct (analysis_loop d 1 [] results_dir w2) as [w3 r]
  end.
  cbn [snd] in Hagg. by rewrite Hagg.
Qed.

Lemma stub_contract strict variance :
  @simulator_contract (Stub.collaborators strict variance) Stub.moment stub_complete.
Proof.
  split; unfold stub_complete; cbn [create_problem run_simulation compute_moment
                                    Stub.collaborators].
  - intros p name dir n mpi fd s s1 s2 [= <-]. unfold Stub.run_case.
    cbn [Stub.cases Stub.failing]. rewrite lookup_insert_eq.
    destruct (bool_decide _); [done|]. intros [= <-]. cbn [Stub.cases Stub.case_point].
    apply lookup_insert_eq.
  - intros s dir name p q name' s' Hp Hne [= <-]. cbn [Stub.cases].
    rewrite lookup_insert_ne; [done|]. congruence.
  - intros s dir name p name' n mpi fd s' Hp Hne. unfold Stub.run_case.
    destruct (Stub.cases s !! (dir, name')) as [c|]; [|done].
    destruct (bool_decide _); [done|]. intros [= <-]. cbn [Stub.cases].
    rewrite lookup_insert_ne; [done|]. congruence.
  - intros s dir name p Hp. unfold Stub.extract_observation. by rewrite Hp.
Qed.

Lemma training_set_pairs_points_with_their_moments_witness :
  let C := Stub.collaborators true 1 in
  let w0 := Stub.world0 true 1 [] in
  let w' := fst (run_mogp_simulation 2 "mpirun" "fdfault" "." w0) in
  snd (load_training_set "." w')
  = inr ([Stub.point_of 157374; Stub.point_of 157375],
         map Stub.moment [Stub.point_of 157374; Stub.point_of 157375]).
Proof.
  intros C w0 w'.
  destruct (training_set_pairs_points_with_their_moments (C := C) Stub.moment
              stub_complete 2 "mpirun" "fdfault" "." w0 w')
    as (d & rg & Hd & Hload).
  - apply stub_contract.
  - reflexivity.
  - vm_compute. reflexivity.
  - injection Hd as <- _. exact Hload.
Defined.

(** Once the training set is loaded, a failure of the emulator stage ends
    the analysis with that exception at the failing call (the fit, the
    hyperparameter estimation, the draw of the query points or the
    prediction): no validation case is constructed or run and nothing is
    printed. *)
Theorem emulator_failure_ends_analysis `{C : Collaborators}
    (mpi_exec fdfault_exec results_dir : string) (w w1 : World)
    (d : Design) (results : list Obs) :
  load_training_set results_dir w = (w1, inr (d, results)) ->
  let w2 := record_event (ev_fit d results) w1 in
  let w3 := record_event ev_learn_hyperparameters w2 in
  let w4 := record_event (ev_sample 1000) w3 in
  match GaussianProcess d results with
  | inl e => run_mogp_analysis mpi_exec fdfault_exec results_dir w = (w2, inl e)
  | inr gp =>
      match learn_hyperparameters gp with
      | inl e => run_mogp_analysis mpi_exec fdfault_exec results_dir w = (w3, inl e)
      | inr gp' =>
          match ed_sample 1000 (rng w1) with
          | inl e => run_mogp_analysis mpi_exec fdfault_exec results_dir w = (w4, inl e)
          | inr (query_points, rg) =>
              match gp_predict gp' query_points with
              | inl e =>
                  run_mogp_analysis mpi_exec fdfault_exec results_dir w
                  = (record_event (ev_predict query_points) (set_rng rg w4), inl e)
              | inr _ => True
              end
          end
      end
  end.
Proof.
  intros Hload w2 w3 w4.
  assert (Hrun : run_mogp_analysis mpi_exec fdfault_exec results_dir w
                 = (emulated <- fit_and_query d results ;;
                    let '(query_points, predictions) := emulated in
                    validation <- draw_and_run_validation mpi_exec fdfault_exec
                                    results_dir ;;
                    let '(known_input, known_value) := validation in
                    history_match known_input known_value query_points predictions) w1).
  { unfold run_mogp_analysis. unfold bind at 1. by rewrite Hload. }
  rewrite Hrun. clear Hrun.
  unfold fit_and_query, bind, do_GaussianProcess, do_learn_hyperparameters,
    do_sample, do_predict.
  destruct (GaussianProcess d results) as [e|gp]; [reflexivity|].
  destruct (learn_hyperparameters gp) as [e|gp']; [reflexivity|].
  cbn [rng record_event].
  destruct (ed_sample 1000 (rng w1)) as [e|[q rg]]; [reflexivity|].
  cbn [rng record_event set_rng].
  destruct (gp_predict gp' q) as [e|preds]; [reflexivity|exact I].
Qed.

Lemma emulator_failure_ends_analysis_witness :
  let C := Faulty.collaborators Faulty.fit_fails in
  let d := [Stub.point_of 1; Stub.point_of 2] in
  let w0 := Faulty.world_after_batch Faulty.fit_fails d in
  let w1 := fst (load_training_set "." w0) in
  run_mogp_analysis "mpirun" "fdfault" "." w0
  = (record_event (ev_fit d (map Stub.moment d)) w1, inl (Raised "FitFailure")).
Proof.
  intros C d w0 w1.
  apply (emulator_failure_ends_analysis (C := C) "mpirun" "fdfault" "." w0 w1 d
           (map Stub.moment d)).
  vm_compute. reflexivity.
Defined.

(** The validation stage: an exception of the sampler ends it after the
    draw; a draw without a row ends it with [IndexError] at [known_input[0]],
    before any case is constructed; otherwise the first row of the draw is
    the point constructed as [known_value]. *)
Theorem validation_needs_a_row `{C : Collaborators}
    (mpi_exec fdfault_exec results_dir : string) (w : World) :
  match ed_sample 1 (rng w) with
  | inl e =>
      draw_and_run_validation mpi_exec fdfault_exec results_dir w
      = (record_event (ev_sample 1) w, inl e)
  | inr ([], rg) =>
      draw_and_run_validation mpi_exec fdfault_exec results_dir w
      = (set_rng rg (record_event (ev_sample 1) w), inl IndexError)
  | inr (p :: _, rg) =>
      exists evs,
        log (fst (draw_and_run_validation mpi_exec fdfault_exec results_dir w))
        = log w ++ ev_sample 1 :: ev_create_problem p "known_value" results_dir :: evs
  end.
Proof.
  unfold draw_and_run_validation, bind, do_sample, index, do_create_problem,
    do_run_simulation, do_compute_moment, ret, raise.
  destruct (ed_sample 1 (rng w)) as [e|[[|p rest] rg]]; [reflexivity..|].
  cbn [lookup list_lookup rng sim set_rng set_sim record_event].
  destruct (create_problem p "known_value" results_dir (sim w)) as [s1 [e|]].
  { exists []. cbn. by rewrite <- app_assoc. }
  cbn [rng sim set_rng set_sim record_event].
  destruct (run_simulation "known_value" 4 mpi_exec fdfault_exec results_dir s1)
    as [s2 [e|]].
  { eexists. cbn. rewrite <- !app_assoc. reflexivity. }
  cbn [rng sim set_rng set_sim record_event].
  destruct (compute_moment "known_value" results_dir s2); eexists; cbn;
    rewrite <- !app_assoc; reflexivity.
Qed.

(** When an output directory without [..] does not resolve to the working
    directory and already holds a design, the batch leaves that design as it
    found it, whatever its outcome: the load of a following analysis returns
    the design that was there before, not the one just generated. *)
Theorem batch_leaves_results_dir_alone `{C : Collaborators}
    sample_points mpi_exec fdfault_exec results_dir (w w' : World) r (stale : Design) :
  dotdot_free results_dir = true ->
  loaded_file (cwd w) results_dir <> saved_file (cwd w) ->
  files w !! loaded_file (cwd w) results_dir = Some stale ->
  run_mogp_simulation sample_points mpi_exec fdfault_exec results_dir w = (w', r) ->
  np_load (Py.join results_dir "input_points.npy") w'
  = (record_event (ev_load (Py.join results_dir "input_points.npy")) w', inr stale).
Proof.
  intros _ Hne Hstale H. unfold np_load.
  pose proof (run_mogp_simulation_spec _ _ _ _ _ _ _ H) as [Hcwd _].
  pose proof (run_mogp_simulation_files _ _ _ _ _ _ _ H _ Hne) as Hfile.
  unfold loaded_file in *. by rewrite Hcwd, Hfile, Hstale.
Qed.

Lemma batch_leaves_results_dir_alone_witness :
  let C := Stub.collaborators true 1 in
  let stale := [Stub.point_of 1] in
  let w0 := set_files (<[["home"; "user"; "results"; "input_points.npy"] := stale]> ∅)
              (Stub.world0 true 1 []) in
  let w' := fst (run_mogp_simulation 2 "mpirun" "fdfault" "results" w0) in
  np_load "results/input_points.npy" w'
  = (record_event (ev_load "results/input_points.npy") w', inr stale).
Proof.
  intros C stale w0 w'.
  apply (batch_leaves_results_dir_alone (C := C) 2 "mpirun" "fdfault" "results" w0 w'
           (inr tt) stale).
  - reflexivity.
  - discriminate.
  - reflexivity.
  - vm_compute. reflexivity.
Defined.


